(** * Jeramo/meetman: the icon scripts

    A shallow embedding of [generate_icons.py] and
    [create_placeholder_icon.py].  Both scripts are straight-line glue
    around Pillow and [os.path]: they build a manifest (a dict literal from
    file name to edge length), obtain one source image, and write one
    resized copy per manifest entry.

    The file system, the console and the exceptions are explicit: a script
    is a function from a [World] to an outcome and the world it leaves
    behind.  The calls into Pillow and [os.path] follow the documented
    behaviour of those libraries, their failures included: a source that is
    missing, unreadable, no image or cut short; a path that may not be
    written, with the exception the operating system gives; a mode the PNG
    encoder does not write; a font that is found at its path, elsewhere in
    the font directories, or not at all.  Pillow's resampling kernels and
    its font rasteriser are not part of this repository; they are
    operations of the [Pillow] class and the scripts are stated for every
    implementation of it. *)

From Stdlib Require Import ZArith Lia List Ascii String DecimalString.
From stdpp Require Import base option strings list gmap.

Local Open Scope Z_scope.
Local Open Scope string_scope.

(** ** Python values used by the scripts *)

Module Py.

(** [str(n)] for an [int], as the f-strings of the scripts format it. *)
Definition str (n : Z) : string := NilZero.string_of_int (Z.to_int n).

(** A [dict] keeps its keys in insertion order; assigning to a key that is
    already present replaces the value and keeps the key's position. *)
Definition dict (V : Type) : Type := list (string * V).

Fixpoint setitem {V} (d : dict V) (k : string) (v : V) : dict V :=
  match d with
  | [] => [(k, v)]
  | (k', v') :: d' =>
      if String.eqb k' k then (k', v) :: d' else (k', v') :: setitem d' k v
  end.

(** A dict display [{k1: v1, ..., kn: vn}] evaluates its items left to
    right and stores them one by one. *)
Definition dict_display {V} (items : list (string * V)) : dict V :=
  fold_left (fun d kv => setitem d (fst kv) (snd kv)) items [].

(** [d.items()], [d.keys()], [d.values()] in iteration order. *)
Definition items {V} (d : dict V) : list (string * V) := d.
Definition keys {V} (d : dict V) : list string := fst <$> d.
Definition values {V} (d : dict V) : list V := snd <$> d.

Definition sep : ascii := "/"%char.

Definition startswith_sep (s : string) : bool :=
  match s with
  | String c _ => Ascii.eqb c sep
  | EmptyString => false
  end.

Fixpoint endswith_sep (s : string) : bool :=
  match s with
  | EmptyString => false
  | String c EmptyString => Ascii.eqb c sep
  | String _ s' => endswith_sep s'
  end.

(** [posixpath.join(a, b)] with one component [b]. *)
Definition os_path_join (a b : string) : string :=
  if startswith_sep b then b
  else if String.eqb a "" || endswith_sep a then a ++ b
  else a ++ "/" ++ b.

(** [s.rstrip('/')]. *)
Fixpoint rstrip_sep (s : string) : string :=
  match s with
  | EmptyString => EmptyString
  | String c s' =>
      match rstrip_sep s' with
      | EmptyString => if Ascii.eqb c sep then EmptyString else String c EmptyString
      | r => String c r
      end
  end.

(** [p[:p.rfind('/') + 1]]: everything up to and including the last
    separator, the empty string when there is none. *)
Fixpoint upto_last_sep (p : string) : string :=
  match p with
  | EmptyString => EmptyString
  | String c p' =>
      match upto_last_sep p' with
      | EmptyString => if Ascii.eqb c sep then String c EmptyString else EmptyString
      | r => String c r
      end
  end.

(** [posixpath.dirname(p)]: the head is stripped of trailing separators
    unless it consists of separators only. *)
Definition os_path_dirname (p : string) : string :=
  let head := upto_last_sep p in
  match rstrip_sep head with
  | EmptyString => head
  | stripped => stripped
  end.

(** [posixpath.basename(p)]: what follows the last separator. *)
Fixpoint os_path_basename (p : string) : string :=
  match p with
  | EmptyString => EmptyString
  | String c p' =>
      if Ascii.eqb c sep then os_path_basename p'
      else match upto_last_sep p' with
           | EmptyString => String c p'
           | _ => os_path_basename p'
           end
  end.

End Py.

(** ** Rasters, files and the world a script runs in *)

(** An RGB pixel, one integer per channel. *)
Definition pixel : Type := Z * Z * Z.

(** Exceptions the library calls of the scripts can raise. *)
Inductive exn : Type :=
| FileNotFoundError (path : string)
| UnidentifiedImageError (path : string)
| PermissionError (path : string)
| IsADirectoryError (path : string)
| ValueError (msg : string)
| OSError (msg : string).

(** A Pillow image: its mode, its size as (width, height) and its pixel
    access.  Coordinates are (x, y).  An image opened from a file has its
    mode and size from the header and reads its pixels when they are first
    needed; [load_error] is the exception that reading raises, for a file
    that is cut short for instance, and [None] for an image whose pixels
    are there. *)
Record Image : Type := mkImage {
  Image_mode : string;
  Image_size : Z * Z;
  getpixel : Z * Z -> pixel;
  load_error : option exn
}.

Definition width (im : Image) : Z := fst (Image_size im).
Definition height (im : Image) : Z := snd (Image_size im).

(** The outcome of a statement: it returns or it raises. *)
Inductive outcome (A : Type) : Type :=
| Ok (a : A)
| Raised (e : exn).
Arguments Ok {A} a.
Arguments Raised {A} e.

(** The status the interpreter exits with: an exception that reaches the
    top of the script prints its traceback and exits with 1. *)
Definition exit_status {A} (o : outcome A) : Z :=
  match o with
  | Ok _ => 0
  | Raised _ => 1
  end.

(** A loaded font: a FreeType face, given by the content of the file it
    was read from, at a point size, or the font [ImageFont.load_default()]
    returns. *)
Inductive Font : Type :=
| FreeTypeFont (face : string) (point_size : Z)
| DefaultFont.

(** [Image.Resampling]. *)
Inductive Resampling : Type :=
| NEAREST | BOX | BILINEAR | HAMMING | BICUBIC | LANCZOS.

(** A file holds an encoded image (losslessly: the raster is what is
    stored), a font face, other bytes, or something this process may not
    read. *)
Inductive file : Type :=
| ImageFile (format : string) (im : Image)
| FontFile (face : string)
| OtherFile (content : string)
| Unreadable.

(** The part of the machine the scripts touch: files by path name; the path
    names the process may create or overwrite, and the exception the
    operating system answers with for one it may not (a missing directory,
    a missing permission, a directory in the way); the file of a given name
    that a walk of the system font directories comes upon first, if any;
    and the lines printed so far.  Permissions are those the run starts
    with; neither script writes a path twice. *)
Record World : Type := mkWorld {
  fs : gmap string file;
  writable : string -> bool;
  stdout : list string;
  write_error : string -> exn;
  font_search : string -> option string
}.

(** A statement runs in a world and leaves a world behind, also when it
    raises: what was written before the exception stays written. *)
Definition M (A : Type) : Type := World -> outcome A * World.

Definition ret {A} (a : A) : M A := fun w => (Ok a, w).

Definition raise {A} (e : exn) : M A := fun w => (Raised e, w).

Definition bind {A B} (m : M A) (k : A -> M B) : M B := fun w =>
  match m w with
  | (Ok a, w') => k a w'
  | (Raised e, w') => (Raised e, w')
  end.

(** [try: m  except: h], the bare [except] that catches everything. *)
Definition try_except {A} (m : M A) (h : M A) : M A := fun w =>
  match m w with
  | (Ok a, w') => (Ok a, w')
  | (Raised _, w') => h w'
  end.

(** [for x in xs: body x]. *)
Fixpoint for_each {A} (xs : list A) (body : A -> M unit) : M unit :=
  match xs with
  | [] => ret tt
  | x :: xs' => bind (body x) (fun _ => for_each xs' body)
  end.

(** [print(s)]. *)
Definition print (s : string) : M unit := fun w =>
  (Ok tt, {| fs := fs w; writable := writable w; stdout := stdout w ++ [s];
             write_error := write_error w; font_search := font_search w |}).

Declare Scope py_scope.
Delimit Scope py_scope with py.
Notation "x <- m ;; k" := (bind m (fun x => k))
  (at level 100, m at next level, right associativity) : py_scope.
Notation "m ;;; k" := (bind m (fun _ => k))
  (at level 100, right associativity) : py_scope.

(** ** Pillow *)

(** What this repository does not contain: the resampling kernels and the
    text rasteriser.  [resample] gives the pixels of the resized raster,
    [getbbox] the box (left, top, right, bottom) a font measures for a text
    at the origin, [text_pixels] the pixels of an image after a text was
    drawn on it.  The scripts are stated for every such library. *)
Class Pillow : Type := {
  resample : Resampling -> Image -> Z * Z -> Z * Z -> pixel;
  getbbox : string -> Font -> Z * Z * Z * Z;
  text_pixels : Image -> Z * Z -> string -> pixel -> Font -> Z * Z -> pixel
}.

(** A box moved by [xy]. *)
Definition bbox_at (xy : Z * Z) (bbox : Z * Z * Z * Z) : Z * Z * Z * Z :=
  let '(bbox0, bbox1, bbox2, bbox3) := bbox in
  (bbox0 + fst xy, bbox1 + snd xy, bbox2 + fst xy, bbox3 + snd xy).

Module ImageColor.

Definition hex_digit (c : ascii) : option Z :=
  let n := Z.of_nat (nat_of_ascii c) in
  if Z.leb 48 n && Z.leb n 57 then Some (n - 48)
  else if Z.leb 97 n && Z.leb n 102 then Some (n - 87)
  else if Z.leb 65 n && Z.leb n 70 then Some (n - 55)
  else None.

(** [int(s, 16)] for a two-character [s]. *)
Definition hex_byte (hi lo : ascii) : option Z :=
  match hex_digit hi, hex_digit lo with
  | Some h, Some l => Some (16 * h + l)
  | _, _ => None
  end.

(** [ImageColor.getrgb], on the two forms the scripts pass: the colour
    name ["white"] and the [#rrggbb] form; other specifiers are errors
    here. *)
Definition getrgb (color : string) : option pixel :=
  if String.eqb color "white" then Some (255, 255, 255)
  else match color with
  | String "#" (String r1 (String r2 (String g1 (String g2
      (String b1 (String b2 EmptyString)))))) =>
      match hex_byte r1 r2, hex_byte g1 g2, hex_byte b1 b2 with
      | Some r, Some g, Some b => Some (r, g, b)
      | _, _, _ => None
      end
  | _ => None
  end.

End ImageColor.

Section PillowCalls.

Context `{Pillow}.

(** [Image.new(mode, size, color)]: a fresh image of the given size, every
    pixel the given colour. *)
Definition Image_new (mode : string) (size : Z * Z) (color : string) : M Image :=
  if Z.ltb (fst size) 0 || Z.ltb (snd size) 0
  then raise (ValueError "Width and height must be >= 0")
  else match ImageColor.getrgb color with
       | Some c => ret {| Image_mode := mode; Image_size := size; getpixel := fun _ => c;
                          load_error := None |}
       | None => raise (ValueError "unknown color specifier")
       end.

(** [Image.open(fp)]: the file must exist, be readable and hold an image.
    Only the header is read: an image file that is cut short opens, and
    raises when its pixels are loaded. *)
Definition Image_open (fp : string) : M Image := fun w =>
  match fs w !! fp with
  | None => (Raised (FileNotFoundError fp), w)
  | Some Unreadable => (Raised (PermissionError fp), w)
  | Some (ImageFile _ im) => (Ok im, w)
  | Some _ => (Raised (UnidentifiedImageError fp), w)
  end.

(** [im.resize(size, resample)]: loads the pixels of [im], then gives a new
    image of exactly the requested size (a copy when the size is already
    that of [im]); [im] itself is left as it is.  Sizes below 1 are
    refused. *)
Definition resize (im : Image) (sz : Z * Z) (filter : Resampling) : outcome Image :=
  match load_error im with
  | Some e => Raised e
  | None =>
      if Z.eqb (fst sz) (width im) && Z.eqb (snd sz) (height im) then Ok im
      else if Z.ltb (fst sz) 1 || Z.ltb (snd sz) 1
      then Raised (ValueError "height and width must be > 0")
      else Ok {| Image_mode := Image_mode im; Image_size := sz;
                 getpixel := resample filter im sz; load_error := None |}
  end.

Definition Image_resize (im : Image) (sz : Z * Z) (filter : Resampling) : M Image :=
  fun w => (resize im sz filter, w).

(** The image modes the PNG encoder writes. *)
Definition png_mode (mode : string) : bool :=
  bool_decide (mode ∈ ["1"; "L"; "LA"; "I"; "I;16"; "I;16B"; "P"; "RGB"; "RGBA"]).

(** The files after a save into [fp] broke off in the encoder: a file that
    was there before is left empty, one that the save had created is
    removed again. *)
Definition broken_off (fp : string) (files : gmap string file) : gmap string file :=
  match files !! fp with
  | Some _ => <[fp := OtherFile ""]> files
  | None => files
  end.

(** [im.save(fp, "PNG")]: loads the pixels of [im], opens [fp] for writing,
    which creates or empties it, and has the PNG encoder write the image;
    the encoder refuses the modes it has no PNG form for. *)
Definition Image_save (im : Image) (fp format : string) : M unit := fun w =>
  match load_error im with
  | Some e => (Raised e, w)
  | None =>
      if negb (writable w fp) then (Raised (write_error w fp), w)
      else if png_mode (Image_mode im)
      then (Ok tt, {| fs := <[fp := ImageFile format im]> (fs w);
                      writable := writable w; stdout := stdout w;
                      write_error := write_error w; font_search := font_search w |})
      else (Raised (OSError "cannot write mode as PNG"),
            {| fs := broken_off fp (fs w);
               writable := writable w; stdout := stdout w;
               write_error := write_error w; font_search := font_search w |})
  end.

(** Opening one font file with FreeType: the file must exist and hold a
    font face. *)
Definition freetype (path : string) (point_size : Z) : M Font := fun w =>
  match fs w !! path with
  | Some (FontFile face) => (Ok (FreeTypeFont face point_size), w)
  | _ => (Raised (OSError "cannot open resource"), w)
  end.

(** [ImageFont.truetype(font, size)]: the file at [font]; when that cannot
    be opened, the file of the same base name that the walk of the system
    font directories finds first; when there is none, the first error. *)
Definition ImageFont_truetype (font : string) (point_size : Z) : M Font := fun w =>
  match freetype font point_size w with
  | (Ok f, w') => (Ok f, w')
  | (Raised e, w') =>
      match font_search w' (Py.os_path_basename font) with
      | Some found => freetype found point_size w'
      | None => (Raised e, w')
      end
  end.

(** [ImageFont.load_default()]. *)
Definition ImageFont_load_default : M Font := ret DefaultFont.

(** [draw.textbbox(xy, text, font=font)] for [draw = ImageDraw.Draw(im)]:
    the box the font measures, moved to the anchor [xy]; it is defined for
    every font, the default one included, as in Pillow 9.2 and later. *)
Definition ImageDraw_textbbox (xy : Z * Z) (text : string) (font : Font)
  : M (Z * Z * Z * Z) := ret (bbox_at xy (getbbox text font)).

(** [draw.text(xy, text, fill=fill, font=font)] writes into the pixels of
    the image [draw] was made for, an image in memory; that image is
    returned here with its new pixels, its mode and size being what they
    were. *)
Definition ImageDraw_text (im : Image) (xy : Z * Z) (text fill : string) (font : Font)
  : M Image :=
  match ImageColor.getrgb fill with
  | Some c => ret {| Image_mode := Image_mode im; Image_size := Image_size im;
                     getpixel := text_pixels im xy text c font;
                     load_error := load_error im |}
  | None => raise (ValueError "unknown color specifier")
  end.

End PillowCalls.

(** The character a [\n] escape stands for. *)
Definition newline : string := String (ascii_of_nat 10) EmptyString.

(** ** generate_icons.py *)

Module GenerateIcons.

(** Lines 12-32. *)
Definition icons : Py.dict Z := Py.dict_display
  [ ("icon_20x20@2x.png", 40);
    ("icon_20x20@3x.png", 60);
    ("icon_29x29@2x.png", 58);
    ("icon_29x29@3x.png", 87);
    ("icon_40x40@2x.png", 80);
    ("icon_40x40@3x.png", 120);
    ("icon_60x60@2x.png", 120);
    ("icon_60x60@3x.png", 180);
    ("icon_20x20.png", 20);
    ("icon_20x20@2x-ipad.png", 40);
    ("icon_29x29.png", 29);
    ("icon_29x29@2x-ipad.png", 58);
    ("icon_40x40.png", 40);
    ("icon_40x40@2x-ipad.png", 80);
    ("icon_76x76.png", 76);
    ("icon_76x76@2x.png", 152);
    ("icon_83.5x83.5@2x.png", 167) ].

Section Script.

Context `{Pillow}.

(** The value of [os.path.abspath(__file__)]: where the script is
    installed. *)
Variable abspath_file : string.

(** Lines 7-9. *)
Definition base_dir : string := Py.os_path_dirname abspath_file.

Definition source_icon : string :=
  Py.os_path_join base_dir
    "MeetingCopilot/Assets.xcassets/AppIcon.appiconset/icon_1024x1024.png".

Definition output_dir : string :=
  Py.os_path_join base_dir "MeetingCopilot/Assets.xcassets/AppIcon.appiconset".

(** Lines 40-43, the body of the loop for one item. *)
Definition loop_body (img : Image) (item : string * Z) : M unit :=
  let filename := fst item in
  let size := snd item in
  let output_path := Py.os_path_join output_dir filename in
  (resized <- Image_resize img (size, size) LANCZOS ;;
   Image_save resized output_path "PNG" ;;;
   print ("Created " ++ filename ++ " (" ++ Py.str size ++ "x" ++ Py.str size ++ ")"))%py.

(** Lines 39-43. *)
Definition resize_loop (img : Image) : M unit :=
  for_each (Py.items icons) (loop_body img).

(** The whole script. *)
Definition main : M unit :=
  (print ("Loading source icon: " ++ source_icon) ;;;
   img <- Image_open source_icon ;;
   resize_loop img ;;;
   print (newline ++ "All icons generated successfully!"))%py.

End Script.

End GenerateIcons.

(** ** create_placeholder_icon.py *)

Module CreatePlaceholderIcon.

(** Line 6. *)
Definition output_dir : string := "MeetingCopilot/Assets.xcassets/AppIcon.appiconset".

(** Line 9. *)
Definition size : Z := 1024.

(** Line 19. *)
Definition text : string := "MC".

(** Lines 37-55. *)
Definition icons : Py.dict Z := Py.dict_display
  [ ("icon_20x20@2x.png", 40);
    ("icon_20x20@3x.png", 60);
    ("icon_29x29@2x.png", 58);
    ("icon_29x29@3x.png", 87);
    ("icon_40x40@2x.png", 80);
    ("icon_40x40@3x.png", 120);
    ("icon_60x60@2x.png", 120);
    ("icon_60x60@3x.png", 180);
    ("icon_20x20.png", 20);
    ("icon_20x20@2x-ipad.png", 40);
    ("icon_29x29.png", 29);
    ("icon_29x29@2x-ipad.png", 58);
    ("icon_40x40.png", 40);
    ("icon_40x40@2x-ipad.png", 80);
    ("icon_76x76.png", 76);
    ("icon_76x76@2x.png", 152);
    ("icon_83.5x83.5@2x.png", 167) ].

(** Lines 22-27: where the text is anchored, from its box measured at the
    origin.  [//] is floor division, as [Z.div] is for a positive
    divisor. *)
Definition text_xy (bbox : Z * Z * Z * Z) : Z * Z :=
  let '(bbox0, bbox1, bbox2, bbox3) := bbox in
  let text_width := bbox2 - bbox0 in
  let text_height := bbox3 - bbox1 in
  let x := (size - text_width) / 2 - bbox0 in
  let y := (size - text_height) / 2 - bbox1 in
  (x, y).

Section Script.

Context `{Pillow}.

(** Line 10: the canvas before anything is drawn on it. *)
Definition new_canvas : M Image := Image_new "RGB" (size, size) "#007AFF".

(** Lines 14-17. *)
Definition load_font : M Font :=
  try_except (ImageFont_truetype "/System/Library/Fonts/Helvetica.ttc" 400)
             ImageFont_load_default.

(** Lines 21-29: measure the text, anchor it, draw it. *)
Definition draw_label (img : Image) (font : Font) : M Image :=
  (bbox <- ImageDraw_textbbox (0, 0) text font ;;
   ImageDraw_text img (text_xy bbox) text "white" font)%py.

(** Lines 32-34. *)
Definition save_source (img : Image) : M unit :=
  let source_path := Py.os_path_join output_dir "icon_1024x1024.png" in
  (Image_save img source_path "PNG" ;;;
   print ("Created source icon: " ++ source_path))%py.

(** Lines 59-62, the body of the loop for one item. *)
Definition loop_body (img : Image) (item : string * Z) : M unit :=
  let filename := fst item in
  let icon_size := snd item in
  let output_path := Py.os_path_join output_dir filename in
  (resized <- Image_resize img (icon_size, icon_size) LANCZOS ;;
   Image_save resized output_path "PNG" ;;;
   print ("Created " ++ filename ++ " (" ++ Py.str icon_size ++ "x"
          ++ Py.str icon_size ++ ")"))%py.

(** Lines 58-62. *)
Definition resize_loop (img : Image) : M unit :=
  for_each (Py.items icons) (loop_body img).

(** Everything after the font has been chosen, lines 19-64. *)
Definition main_with_font (img : Image) (font : Font) : M unit :=
  (img <- draw_label img font ;;
   save_source img ;;;
   resize_loop img ;;;
   print (newline ++ "All icons generated successfully!"))%py.

(** The whole script. *)
Definition main : M unit :=
  (img <- new_canvas ;;
   font <- load_font ;;
   main_with_font img font)%py.

End Script.

End CreatePlaceholderIcon.

(** ** One loop for both scripts *)

(** The progress line of an item. *)
Definition created_line (item : string * Z) : string :=
  "Created " ++ fst item ++ " (" ++ Py.str (snd item) ++ "x" ++ Py.str (snd item) ++ ")".

(** The loop body of either script, for the output directory [dir]. *)
Definition write_icon `{Pillow} (dir : string) (img : Image) (item : string * Z) : M unit :=
  (resized <- Image_resize img (snd item, snd item) LANCZOS ;;
   Image_save resized (Py.os_path_join dir (fst item)) "PNG" ;;;
   print (created_line item))%py.

(** The path an item is written to. *)
Definition icon_path (dir : string) (item : string * Z) : string :=
  Py.os_path_join dir (fst item).

(** What [join] puts in front of a relative component. *)
Definition join_prefix (a : string) : string :=
  if String.eqb a "" || Py.endswith_sep a then a else a ++ "/".

(** ** A stand-in Pillow for running the scripts

    Nearest-neighbour sampling for every filter and a fixed-pitch font whose
    glyphs are filled boxes: enough to execute the scripts on concrete
    worlds. *)

Module StandIn.

Definition nearest (im : Image) (sz xy : Z * Z) : pixel :=
  getpixel im (fst xy * width im / fst sz, snd xy * height im / snd sz).

Definition box (text : string) (font : Font) : Z * Z * Z * Z :=
  let n := Z.of_nat (String.length text) in
  match font with
  | DefaultFont => (0, 3, 6 * n, 11)
  | FreeTypeFont _ pt => (pt / 16, pt / 4, pt / 16 + n * (3 * pt / 4), pt)
  end.

Definition fill_box (im : Image) (xy : Z * Z) (text : string) (c : pixel) (font : Font)
    (p : Z * Z) : pixel :=
  let '(l, t, r, b) := bbox_at xy (box text font) in
  if Z.leb l (fst p) && Z.ltb (fst p) r && Z.leb t (snd p) && Z.ltb (snd p) b
  then c else getpixel im p.

#[local] Instance pillow : Pillow :=
  {| resample := fun _ => nearest; getbbox := box; text_pixels := fill_box |}.

(** A source image: a gradient of the given size. *)
Definition gradient (w h : Z) : Image :=
  {| Image_mode := "RGB"; Image_size := (w, h);
     getpixel := fun xy => (fst xy mod 256, snd xy mod 256, 0);
     load_error := None |}.

Definition script : string := "/Users/dev/meetman/generate_icons.py".

(** A machine on which every path may be written and nothing exists. *)
Definition empty_world : World :=
  {| fs := ∅; writable := fun _ => true; stdout := [];
     write_error := PermissionError; font_search := fun _ => None |}.

(** The same machine with a 1024x1024 source icon where generate_icons.py
    looks for it. *)
Definition world_with_source : World :=
  {| fs := {[ GenerateIcons.source_icon script := ImageFile "PNG" (gradient 1024 1024) ]};
     writable := fun _ => true; stdout := [];
     write_error := PermissionError; font_search := fun _ => None |}.

(** A machine on which nothing may be written. *)
Definition read_only_world : World :=
  {| fs := {[ GenerateIcons.source_icon script := ImageFile "PNG" (gradient 1024 1024) ]};
     writable := fun _ => false; stdout := [];
     write_error := PermissionError; font_search := fun _ => None |}.

End StandIn.

(** ** Names for what the scripts print and build *)

Definition summary_line : string := newline ++ "All icons generated successfully!".

Definition loading_line (source_icon : string) : string :=
  "Loading source icon: " ++ source_icon.

(** A world after one more line was printed. *)
Definition printed (w : World) (line : string) : World :=
  {| fs := fs w; writable := writable w; stdout := stdout w ++ [line];
     write_error := write_error w; font_search := font_search w |}.

(** A world after an image was saved. *)
Definition saved (w : World) (fp format : string) (im : Image) : World :=
  {| fs := <[fp := ImageFile format im]> (fs w); writable := writable w; stdout := stdout w;
     write_error := write_error w; font_search := font_search w |}.

(** A world after a save broke off in the encoder. *)
Definition save_broken_off (w : World) (fp : string) : World :=
  {| fs := broken_off fp (fs w); writable := writable w; stdout := stdout w;
     write_error := write_error w; font_search := font_search w |}.

Definition helvetica : string := "/System/Library/Fonts/Helvetica.ttc".

(** The font lines 14-17 end up with in a world: the one
    [ImageFont.truetype] gives, the default one when it raises. *)
Definition chosen_font (w : World) : Font :=
  match fst (ImageFont_truetype helvetica 400 w) with
  | Ok font => font
  | Raised _ => DefaultFont
  end.

(** The canvas of line 10. *)
Definition blue_canvas : Image :=
  {| Image_mode := "RGB";
     Image_size := (CreatePlaceholderIcon.size, CreatePlaceholderIcon.size);
     getpixel := fun _ => (0, 122, 255);
     load_error := None |}.

(** The canvas after line 29 drew the label with a font. *)
Definition labelled `{Pillow} (font : Font) : Image :=
  {| Image_mode := "RGB";
     Image_size := (CreatePlaceholderIcon.size, CreatePlaceholderIcon.size);
     getpixel := text_pixels blue_canvas
                   (CreatePlaceholderIcon.text_xy
                    (bbox_at (0, 0) (getbbox CreatePlaceholderIcon.text font)))
                   CreatePlaceholderIcon.text (255, 255, 255) font;
     load_error := None |}.

(** Where the placeholder script saves its source image. *)
Definition source_path : string :=
  Py.os_path_join CreatePlaceholderIcon.output_dir "icon_1024x1024.png".

(** The line printed after the source image was saved. *)
Definition source_line : string := "Created source icon: " ++ source_path.

(** ** More machines to run the scripts on *)

Module Scenario.

(** The manifest entry whose file is locked in the two machines below. *)
Definition locked_item : string * Z := ("icon_29x29@3x.png", 87).

(** The machine of [StandIn.world_with_source], except that the path of
    [locked_item] under the output directory of generate_icons.py is taken
    by a directory. *)
Definition locked_generate : World :=
  {| fs := fs StandIn.world_with_source;
     writable := fun p =>
       negb (String.eqb p (icon_path (GenerateIcons.output_dir StandIn.script) locked_item));
     stdout := [];
     write_error := IsADirectoryError; font_search := fun _ => None |}.

(** An empty machine on which the file of [locked_item] under the output
    directory of create_placeholder_icon.py may not be written. *)
Definition locked_placeholder : World :=
  {| fs := ∅;
     writable := fun p =>
       negb (String.eqb p (icon_path CreatePlaceholderIcon.output_dir locked_item));
     stdout := [];
     write_error := PermissionError; font_search := fun _ => None |}.

(** A checkout without the output directory: nothing can be created in
    it. *)
Definition no_output_dir : World :=
  {| fs := ∅; writable := fun _ => false; stdout := [];
     write_error := FileNotFoundError; font_search := fun _ => None |}.

(** A machine with Helvetica installed and stale files where the
    placeholder script is going to write. *)
Definition world_with_font : World :=
  {| fs := {[ helvetica := FontFile "Helvetica";
              source_path := OtherFile "stale";
              icon_path CreatePlaceholderIcon.output_dir ("icon_20x20.png", 20)
                := ImageFile "PNG" (StandIn.gradient 3 5) ]};
     writable := fun _ => true;
     stdout := ["earlier output"];
     write_error := PermissionError; font_search := fun _ => None |}.

(** A machine that has no file at the path line 15 names but has a
    Helvetica.ttc in its font directories. *)
Definition world_with_font_elsewhere : World :=
  {| fs := {[ "/Library/Fonts/Helvetica.ttc" := FontFile "Helvetica elsewhere" ]};
     writable := fun _ => true;
     stdout := [];
     write_error := PermissionError;
     font_search := fun name =>
       if String.eqb name "Helvetica.ttc" then Some "/Library/Fonts/Helvetica.ttc" else None |}.

(** A CMYK source icon, and an icon left from an earlier run at the first
    path of the manifest. *)
Definition cmyk_source : Image :=
  {| Image_mode := "CMYK"; Image_size := (1024, 1024);
     getpixel := fun _ => (0, 0, 0); load_error := None |}.

Definition world_with_cmyk_source : World :=
  {| fs := {[ GenerateIcons.source_icon StandIn.script := ImageFile "JPEG" cmyk_source;
              icon_path (GenerateIcons.output_dir StandIn.script) ("icon_20x20@2x.png", 40)
                := ImageFile "PNG" (StandIn.gradient 40 40) ]};
     writable := fun _ => true;
     stdout := [];
     write_error := PermissionError; font_search := fun _ => None |}.

(** A source icon whose file is cut short. *)
Definition cut_short_source : Image :=
  {| Image_mode := "RGB"; Image_size := (1024, 1024);
     getpixel := fun _ => (0, 0, 0);
     load_error := Some (OSError "image file is truncated") |}.

Definition world_with_cut_short_source : World :=
  {| fs := {[ GenerateIcons.source_icon StandIn.script := ImageFile "PNG" cut_short_source ]};
     writable := fun _ => true;
     stdout := [];
     write_error := PermissionError; font_search := fun _ => None |}.

End Scenario.

(** ** The scripts on concrete inputs *)

Example str_180 : Py.str 180 = "180".
Proof. reflexivity. Qed.

Example join_rel : Py.os_path_join "a/b" "c.png" = "a/b/c.png".
Proof. reflexivity. Qed.

Example join_abs : Py.os_path_join "a/b" "/c.png" = "/c.png".
Proof. reflexivity. Qed.

Example dirname_file : Py.os_path_dirname "/x/y/gen.py" = "/x/y".
Proof. reflexivity. Qed.

Example dirname_root : Py.os_path_dirname "/gen.py" = "/".
Proof. reflexivity. Qed.

Example dirname_none : Py.os_path_dirname "gen.py" = "".
Proof. reflexivity. Qed.

Example basename_font : Py.os_path_basename helvetica = "Helvetica.ttc".
Proof. reflexivity. Qed.

Example basename_none : Py.os_path_basename "a/b/" = "".
Proof. reflexivity. Qed.

Example display_overwrites :
  Py.dict_display [("a", 1); ("b", 2); ("a", 3)] = [("a", 3); ("b", 2)].
Proof. reflexivity. Qed.

Example ios_blue : ImageColor.getrgb "#007AFF" = Some (0, 122, 255).
Proof. reflexivity. Qed.

Example generate_runs :
  fst (GenerateIcons.main (H := StandIn.pillow) StandIn.script StandIn.world_with_source)
  = Ok tt.
Proof. vm_compute. reflexivity. Qed.

Example generate_without_source :
  fst (GenerateIcons.main (H := StandIn.pillow) StandIn.script StandIn.empty_world)
  = Raised (FileNotFoundError
      "/Users/dev/meetman/MeetingCopilot/Assets.xcassets/AppIcon.appiconset/icon_1024x1024.png").
Proof. vm_compute. reflexivity. Qed.

Example generate_read_only :
  fst (GenerateIcons.main (H := StandIn.pillow) StandIn.script StandIn.read_only_world)
  = Raised (PermissionError
      "/Users/dev/meetman/MeetingCopilot/Assets.xcassets/AppIcon.appiconset/icon_20x20@2x.png").
Proof. vm_compute. reflexivity. Qed.

(** A CMYK source: the first save breaks off in the encoder and the icon
    that was at that path is left empty. *)
Example generate_cmyk :
  fst (GenerateIcons.main (H := StandIn.pillow) StandIn.script Scenario.world_with_cmyk_source)
  = Raised (OSError "cannot write mode as PNG") /\
  fs (snd (GenerateIcons.main (H := StandIn.pillow) StandIn.script
             Scenario.world_with_cmyk_source))
    !! "/Users/dev/meetman/MeetingCopilot/Assets.xcassets/AppIcon.appiconset/icon_20x20@2x.png"
  = Some (OtherFile "").
Proof. split; vm_compute; reflexivity. Qed.

(** A source cut short: it opens, and the first resize raises. *)
Example generate_cut_short :
  fst (GenerateIcons.main (H := StandIn.pillow) StandIn.script
         Scenario.world_with_cut_short_source)
  = Raised (OSError "image file is truncated") /\
  stdout (snd (GenerateIcons.main (H := StandIn.pillow) StandIn.script
                 Scenario.world_with_cut_short_source))
  = [loading_line (GenerateIcons.source_icon StandIn.script)].
Proof. split; vm_compute; reflexivity. Qed.

Example placeholder_runs :
  fst (CreatePlaceholderIcon.main (H := StandIn.pillow) StandIn.empty_world) = Ok tt.
Proof. vm_compute. reflexivity. Qed.

Example placeholder_read_only :
  fst (CreatePlaceholderIcon.main (H := StandIn.pillow) StandIn.read_only_world)
  = Raised (PermissionError
      "MeetingCopilot/Assets.xcassets/AppIcon.appiconset/icon_1024x1024.png").
Proof. vm_compute. reflexivity. Qed.

Example placeholder_without_directory :
  fst (CreatePlaceholderIcon.main (H := StandIn.pillow) Scenario.no_output_dir)
  = Raised (FileNotFoundError
      "MeetingCopilot/Assets.xcassets/AppIcon.appiconset/icon_1024x1024.png").
Proof. vm_compute. reflexivity. Qed.

Example font_at_its_path :
  chosen_font Scenario.world_with_font = FreeTypeFont "Helvetica" 400.
Proof. reflexivity. Qed.

Example font_found_elsewhere :
  chosen_font Scenario.world_with_font_elsewhere = FreeTypeFont "Helvetica elsewhere" 400.
Proof. reflexivity. Qed.

Example font_missing : chosen_font StandIn.empty_world = DefaultFont.
Proof. reflexivity. Qed.

Example centred_default_font :
  CreatePlaceholderIcon.text_xy (0, 3, 12, 11) = (506, 505).
Proof. reflexivity. Qed.

(** ** Statements: sequencing and exceptions *)

Section Statements.

Context {A B : Type}.
Implicit Types (m : M A) (k : A -> M B).

Lemma bind_Ok m k w a w1 : m w = (Ok a, w1) -> bind m k w = k a w1.
Proof. intros Hm. unfold bind. now rewrite Hm. Qed.

Lemma bind_Raised m k w e w1 : m w = (Raised e, w1) -> bind m k w = (Raised e, w1).
Proof. intros Hm. unfold bind. now rewrite Hm. Qed.

Lemma bind_Ok_inv m k w b w2 :
  bind m k w = (Ok b, w2) -> exists a w1, m w = (Ok a, w1) /\ k a w1 = (Ok b, w2).
Proof.
  unfold bind. destruct (m w) as [[a|e] w1]; intros Hk.
  - now exists a, w1.
  - discriminate.
Qed.

End Statements.

(** A run whose outcome is [Ok] has returned, in the world it left; one
    whose outcome is an exception has raised it there. *)
Lemma returned {A} (run : outcome A * World) (a : A) :
  fst run = Ok a -> run = (Ok a, snd run).
Proof. destruct run as [o w]. simpl. now intros ->. Qed.

Lemma raised {A} (run : outcome A * World) (e : exn) :
  fst run = Raised e -> run = (Raised e, snd run).
Proof. destruct run as [o w]. simpl. now intros ->. Qed.

Lemma print_spec s w : print s w = (Ok tt, printed w s).
Proof. reflexivity. Qed.

(** ** Paths *)

Lemma append_assoc (a b c : string) : (a ++ b) ++ c = a ++ b ++ c.
Proof.
  induction a as [|x a IH]; [reflexivity|].
  change (String x ((a ++ b) ++ c) = String x (a ++ b ++ c)). now f_equal.
Qed.

Lemma join_relative a b :
  Py.startswith_sep b = false -> Py.os_path_join a b = join_prefix a ++ b.
Proof.
  intros Hb. unfold Py.os_path_join, join_prefix. rewrite Hb.
  destruct (String.eqb a "" || Py.endswith_sep a); [reflexivity|].
  now rewrite append_assoc.
Qed.

(** Under one directory, different relative names are different paths. *)
Lemma join_inj a b1 b2 :
  Py.startswith_sep b1 = false -> Py.startswith_sep b2 = false ->
  Py.os_path_join a b1 = Py.os_path_join a b2 -> b1 = b2.
Proof.
  intros H1 H2. rewrite !join_relative by assumption.
  apply String.app_inj.
Qed.

(** ** Resizing and the loop *)

Section Loop.

Context `{Pillow}.

Lemma resize_size im sz filter r : resize im sz filter = Ok r -> Image_size r = sz.
Proof.
  unfold resize, width, height. destruct (load_error im); [discriminate|].
  destruct sz as [a b]; simpl.
  destruct (Z.eqb a _ && Z.eqb b _) eqn:Hsame.
  - apply andb_true_iff in Hsame as [Ha Hb].
    apply Z.eqb_eq in Ha, Hb. intros [= <-].
    destruct (Image_size im); simpl in *; congruence.
  - destruct (Z.ltb a 1 || Z.ltb b 1); [discriminate|]. now intros [= <-].
Qed.

(** A resized image has the mode of its source and its pixels in memory,
    and the source could be loaded. *)
Lemma resize_mode im sz filter r :
  resize im sz filter = Ok r ->
  Image_mode r = Image_mode im /\ load_error r = None /\ load_error im = None.
Proof.
  unfold resize. destruct (load_error im) eqn:Hload; [discriminate|].
  destruct (Z.eqb _ _ && Z.eqb _ _).
  - intros [= <-]. auto.
  - destruct (Z.ltb _ 1 || Z.ltb _ 1); [discriminate|]. intros [= <-]. auto.
Qed.

Lemma resize_Ok im sz filter :
  load_error im = None -> 1 <= fst sz -> 1 <= snd sz -> exists r, resize im sz filter = Ok r.
Proof.
  intros Hload Ha Hb. unfold resize. rewrite Hload.
  destruct (Z.eqb _ _ && Z.eqb _ _); [eauto|].
  apply Z.ltb_ge in Ha, Hb. rewrite Ha, Hb. simpl. eauto.
Qed.

(** For a size of at least 1, a resize fails only where the pixels cannot
    be loaded. *)
Lemma resize_Raised im sz filter e :
  1 <= fst sz -> 1 <= snd sz -> resize im sz filter = Raised e -> load_error im = Some e.
Proof.
  intros Ha Hb. unfold resize. destruct (load_error im); [now intros [= <-]|].
  destruct (Z.eqb _ _ && Z.eqb _ _); [discriminate|].
  apply Z.ltb_ge in Ha, Hb. rewrite Ha, Hb. discriminate.
Qed.

Variables (dir : string) (img : Image).

Lemma write_icon_Ok_inv item w w' :
  write_icon dir img item w = (Ok tt, w') ->
  exists r, resize img (snd item, snd item) LANCZOS = Ok r /\
    writable w (icon_path dir item) = true /\
    w' = printed (saved w (icon_path dir item) "PNG" r) (created_line item).
Proof.
  unfold write_icon, bind, Image_resize, Image_save, print, icon_path.
  destruct (resize img _ LANCZOS) as [r|e] eqn:Hr; [|discriminate].
  destruct (resize_mode _ _ _ _ Hr) as (_ & -> & _).
  destruct (writable w _); [|discriminate]. simpl.
  destruct (png_mode (Image_mode r)); [|discriminate].
  intros [= <-]. now exists r.
Qed.

(** An iteration returns only for a source whose pixels load and whose
    mode the PNG encoder writes. *)
Lemma write_icon_Ok_ready item w w' :
  write_icon dir img item w = (Ok tt, w') ->
  load_error img = None /\ png_mode (Image_mode img) = true.
Proof.
  unfold write_icon, bind, Image_resize, Image_save, print.
  destruct (resize img _ LANCZOS) as [r|e] eqn:Hr; [|discriminate].
  destruct (resize_mode _ _ _ _ Hr) as (Hmode & -> & Hload).
  destruct (writable w _); [|discriminate]. simpl.
  rewrite Hmode. destruct (png_mode (Image_mode img)); [auto | discriminate].
Qed.

Lemma write_icon_runs item w :
  load_error img = None -> png_mode (Image_mode img) = true ->
  1 <= snd item -> writable w (icon_path dir item) = true ->
  exists w', write_icon dir img item w = (Ok tt, w') /\ writable w' = writable w.
Proof.
  intros Hload Hmode Hsz Hw.
  destruct (resize_Ok img (snd item, snd item) LANCZOS) as [r Hr]; [easy..|].
  destruct (resize_mode _ _ _ _ Hr) as (Hmr & Hlr & _).
  unfold write_icon, bind, Image_resize, Image_save, print. fold (icon_path dir item).
  rewrite Hr, Hlr, Hw, Hmr, Hmode. simpl. eauto.
Qed.

(** What a run of the loop that returns has done. *)
Lemma write_icons_Ok_inv items : forall w w',
  for_each items (write_icon dir img) w = (Ok tt, w') ->
  writable w' = writable w /\
  stdout w' = (stdout w ++ (created_line <$> items))%list /\
  (forall item, item ∈ items -> writable w (icon_path dir item) = true) /\
  (forall p, p ∉ (icon_path dir <$> items) -> fs w' !! p = fs w !! p) /\
  (NoDup (icon_path dir <$> items) ->
   forall item, item ∈ items ->
     exists r, resize img (snd item, snd item) LANCZOS = Ok r /\
               fs w' !! icon_path dir item = Some (ImageFile "PNG" r)).
Proof.
  induction items as [|item0 items IH]; intros w w' Hrun.
  - injection Hrun as <-. repeat split.
    + now rewrite app_nil_r.
    + intros item Hin. now apply elem_of_nil in Hin.
    + intros _ item Hin. now apply elem_of_nil in Hin.
  - simpl in Hrun. apply bind_Ok_inv in Hrun as ([] & w1 & H0 & Hrest).
    apply write_icon_Ok_inv in H0 as (r0 & Hr0 & Hw0 & ->).
    apply IH in Hrest as (Hwr & Hout & Hall & Hother & Hfiles). simpl in *.
    repeat split.
    + exact Hwr.
    + rewrite Hout, <- app_assoc. reflexivity.
    + intros item [->|Hin]%elem_of_cons; [exact Hw0|]. now apply Hall.
    + intros p [Hne Hnin]%not_elem_of_cons.
      rewrite Hother by exact Hnin. now apply lookup_insert_ne.
    + intros [Hfresh Hnd]%NoDup_cons item [->|Hin]%elem_of_cons.
      * exists r0. split; [exact Hr0|].
        rewrite Hother by exact Hfresh. apply lookup_insert_eq.
      * now apply Hfiles.
Qed.

Lemma write_icons_Ok_ready items w w' item :
  item ∈ items ->
  for_each items (write_icon dir img) w = (Ok tt, w') ->
  load_error img = None /\ png_mode (Image_mode img) = true.
Proof.
  destruct items as [|item0 items]; [now intros Hin%elem_of_nil|].
  intros _ Hrun. simpl in Hrun. apply bind_Ok_inv in Hrun as ([] & w1 & H0 & _).
  exact (write_icon_Ok_ready _ _ _ H0).
Qed.

(** The loop returns when the source loads and can be encoded, every size
    is at least 1 and every path may be written. *)
Lemma write_icons_run items : forall w,
  load_error img = None -> png_mode (Image_mode img) = true ->
  (forall item, item ∈ items -> 1 <= snd item /\ writable w (icon_path dir item) = true) ->
  exists w', for_each items (write_icon dir img) w = (Ok tt, w').
Proof.
  induction items as [|item0 items IH]; intros w Hload Hmode Hall.
  - now exists w.
  - destruct (Hall item0) as [Hsz Hw]; [apply elem_of_cons; now left|].
    destruct (write_icon_runs item0 w Hload Hmode Hsz Hw) as (w1 & H1 & Hwr).
    destruct (IH w1 Hload Hmode) as [w' Hrest].
    + intros item Hin. rewrite Hwr. apply Hall, elem_of_cons. now right.
    + exists w'. simpl. now rewrite (bind_Ok _ _ _ _ _ H1).
Qed.

End Loop.

(** ** The manifests *)

Lemma icons_agree : GenerateIcons.icons = CreatePlaceholderIcon.icons.
Proof. reflexivity. Qed.

Lemma keys_NoDup : NoDup (Py.keys GenerateIcons.icons).
Proof. apply (bool_decide_unpack _). vm_compute. exact I. Qed.

Lemma keys_relative :
  Forall (fun k => Py.startswith_sep k = false) (Py.keys GenerateIcons.icons).
Proof. apply (bool_decide_unpack _). vm_compute. exact I. Qed.

Lemma sizes_in_range :
  Forall (fun s => 1 <= s <= CreatePlaceholderIcon.size) (Py.values GenerateIcons.icons).
Proof. apply (bool_decide_unpack _). vm_compute. exact I. Qed.

Lemma source_name_not_a_key : "icon_1024x1024.png" ∉ Py.keys GenerateIcons.icons.
Proof. apply (bool_decide_unpack _). vm_compute. exact I. Qed.

Lemma item_key (item : string * Z) items : item ∈ items -> fst item ∈ Py.keys items.
Proof. intros Hin. unfold Py.keys. now apply list_elem_of_fmap_2. Qed.

Lemma item_size_in_range item :
  item ∈ Py.items GenerateIcons.icons -> 1 <= snd item <= CreatePlaceholderIcon.size.
Proof.
  intros Hin. pose proof sizes_in_range as Hall.
  rewrite Forall_forall in Hall. apply Hall.
  unfold Py.values. now apply list_elem_of_fmap_2.
Qed.

(** Different manifest entries are written to different paths, whatever the
    output directory. *)
Lemma icon_paths_NoDup dir : NoDup (icon_path dir <$> Py.items GenerateIcons.icons).
Proof.
  change (icon_path dir) with (Py.os_path_join dir ∘ @fst string Z).
  rewrite list_fmap_compose. apply NoDup_fmap_2_strong; [|exact keys_NoDup].
  pose proof keys_relative as Hrel. rewrite Forall_forall in Hrel.
  intros k1 k2 H1 H2. apply join_inj; now apply Hrel.
Qed.

(** C6: each manifest has 17 entries with pairwise distinct file names, and
    every target edge length is a positive integer that does not exceed
    1024, the edge length of the source image; against the 1024 by 1024
    canvas of the placeholder script no target is wider or higher than the
    source. *)
Theorem manifest_invariant :
  (length (Py.items GenerateIcons.icons) = 17%nat /\
   NoDup (Py.keys GenerateIcons.icons) /\
   Forall (fun s => 0 < s <= CreatePlaceholderIcon.size) (Py.values GenerateIcons.icons)) /\
  (length (Py.items CreatePlaceholderIcon.icons) = 17%nat /\
   NoDup (Py.keys CreatePlaceholderIcon.icons) /\
   Forall (fun s => 0 < s <= CreatePlaceholderIcon.size) (Py.values CreatePlaceholderIcon.icons)) /\
  CreatePlaceholderIcon.size = 1024 /\
  Forall (fun s => s <= width blue_canvas /\ s <= height blue_canvas)
    (Py.values CreatePlaceholderIcon.icons).
Proof.
  rewrite <- icons_agree.
  assert (Hsrc : Forall (fun s => s <= width blue_canvas /\ s <= height blue_canvas)
                        (Py.values GenerateIcons.icons)).
  { eapply Forall_impl; [exact sizes_in_range|]. simpl. intros s Hs.
    unfold width, height. simpl. lia. }
  assert (Hsz : Forall (fun s => 0 < s <= CreatePlaceholderIcon.size)
                       (Py.values GenerateIcons.icons)).
  { eapply Forall_impl; [exact sizes_in_range|]. simpl. intros s Hs. lia. }
  repeat split; solve [reflexivity | exact keys_NoDup | exact Hsz | exact Hsrc].
Qed.

(** Anchored where lines 26-27 put it, a box (x0, y0, x1, y1) has left and
    right margins that differ by at most one pixel, and so have its top and
    bottom margins. *)
Lemma text_xy_centers (bbox : Z * Z * Z * Z) :
  let '(x0, y0, x1, y1) := bbox_at (CreatePlaceholderIcon.text_xy bbox) bbox in
  0 <= CreatePlaceholderIcon.size - (x0 + x1) <= 1 /\
  0 <= CreatePlaceholderIcon.size - (y0 + y1) <= 1.
Proof.
  destruct bbox as [[[b0 b1] b2] b3].
  unfold bbox_at, CreatePlaceholderIcon.text_xy,
    CreatePlaceholderIcon.size. simpl fst. simpl snd.
  pose proof (Z.div_mod (1024 - (b2 - b0)) 2 ltac:(lia)) as Hx.
  pose proof (Z.mod_pos_bound (1024 - (b2 - b0)) 2 ltac:(lia)) as Hxr.
  pose proof (Z.div_mod (1024 - (b3 - b1)) 2 ltac:(lia)) as Hy.
  pose proof (Z.mod_pos_bound (1024 - (b3 - b1)) 2 ltac:(lia)) as Hyr.
  lia.
Qed.

Lemma bbox_at_origin (bbox : Z * Z * Z * Z) : bbox_at (0, 0) bbox = bbox.
Proof. destruct bbox as [[[b0 b1] b2] b3]. unfold bbox_at. simpl. now rewrite !Z.add_0_r. Qed.

(** C5: the label is centred on the 1024 by 1024 canvas.  The script
    measures the text at the origin, anchors it at
    x = (1024 - text_width) // 2 - bbox[0], y = (1024 - text_height) // 2 - bbox[1]
    and draws it there; the box (x0, y0, x1, y1) of the text at that anchor
    has left and right margins that differ by at most one pixel, and so
    have its top and bottom margins: twice the centre of the box is the
    canvas size or one less, in each direction.  The arithmetic holds for
    every measured box. *)
Theorem label_centered `{Pillow} (font : Font) (w : World) :
  (exists bbox x0 y0 x1 y1,
     ImageDraw_textbbox (0, 0) CreatePlaceholderIcon.text font w = (Ok bbox, w) /\
     CreatePlaceholderIcon.draw_label blue_canvas font w
       = ImageDraw_text blue_canvas (CreatePlaceholderIcon.text_xy bbox)
           CreatePlaceholderIcon.text "white" font w /\
     ImageDraw_textbbox (CreatePlaceholderIcon.text_xy bbox) CreatePlaceholderIcon.text font w
       = (Ok (x0, y0, x1, y1), w) /\
     0 <= CreatePlaceholderIcon.size - (x0 + x1) <= 1 /\
     0 <= CreatePlaceholderIcon.size - (y0 + y1) <= 1) /\
  (forall bbox : Z * Z * Z * Z,
     let '(x0, y0, x1, y1) := bbox_at (CreatePlaceholderIcon.text_xy bbox) bbox in
     0 <= CreatePlaceholderIcon.size - (x0 + x1) <= 1 /\
     0 <= CreatePlaceholderIcon.size - (y0 + y1) <= 1).
Proof.
  split; [|exact text_xy_centers].
  set (measured := getbbox CreatePlaceholderIcon.text font).
  pose proof (text_xy_centers measured) as Hc.
  destruct (bbox_at (CreatePlaceholderIcon.text_xy measured) measured)
    as [[[x0 y0] x1] y1] eqn:Hbox.
  exists measured, x0, y0, x1, y1.
  assert (Hmeasure : ImageDraw_textbbox (0, 0) CreatePlaceholderIcon.text font w
                     = (Ok measured, w)).
  { unfold ImageDraw_textbbox, ret. fold measured. now rewrite bbox_at_origin. }
  split; [exact Hmeasure|]. split.
  - unfold CreatePlaceholderIcon.draw_label. now rewrite (bind_Ok _ _ _ _ _ Hmeasure).
  - split; [|exact Hc]. unfold ImageDraw_textbbox, ret. fold measured. now rewrite Hbox.
Qed.

(** ** The placeholder script, statement by statement *)

Section Placeholder.

Context `{Pillow}.
Import CreatePlaceholderIcon.

Lemma new_canvas_spec w : new_canvas w = (Ok blue_canvas, w).
Proof. reflexivity. Qed.

Lemma freetype_world path sz w : snd (freetype path sz w) = w.
Proof. unfold freetype. destruct (fs w !! path) as [[| | |]|]; reflexivity. Qed.

Lemma truetype_world font sz w : snd (ImageFont_truetype font sz w) = w.
Proof.
  unfold ImageFont_truetype.
  pose proof (freetype_world font sz w) as Hw.
  destruct (freetype font sz w) as [[f|e] w1]; simpl in Hw; subst w1; [reflexivity|].
  destruct (font_search w _); [apply freetype_world | reflexivity].
Qed.

Lemma load_font_spec w : load_font w = (Ok (chosen_font w), w).
Proof.
  unfold load_font, try_except, chosen_font. fold helvetica.
  pose proof (truetype_world helvetica 400 w) as Hw.
  destruct (ImageFont_truetype helvetica 400 w) as [[f|e] w1];
    simpl in Hw; subst w1; reflexivity.
Qed.

Lemma draw_label_spec font w : draw_label blue_canvas font w = (Ok (labelled font), w).
Proof. reflexivity. Qed.

Lemma main_with_font_unfold font w :
  main_with_font blue_canvas font w
  = bind (save_source (labelled font))
      (fun _ => bind (for_each (Py.items icons) (write_icon output_dir (labelled font)))
                  (fun _ => print summary_line)) w.
Proof. reflexivity. Qed.

Lemma main_unfold w : main w = main_with_font blue_canvas (chosen_font w) w.
Proof.
  unfold main. rewrite (bind_Ok _ _ _ _ _ (new_canvas_spec w)).
  now rewrite (bind_Ok _ _ _ _ _ (load_font_spec w)).
Qed.

(** The image the script draws is in memory and RGB. *)
Lemma labelled_ready font :
  load_error (labelled font) = None /\ png_mode (Image_mode (labelled font)) = true.
Proof. split; reflexivity. Qed.

Lemma save_source_spec font w :
  save_source (labelled font) w
  = if writable w source_path
    then (Ok tt, printed (saved w source_path "PNG" (labelled font)) source_line)
    else (Raised (write_error w source_path), w).
Proof.
  unfold save_source, bind, Image_save. fold source_path.
  destruct (labelled_ready font) as [-> ->].
  destruct (writable w source_path); reflexivity.
Qed.

(** What a run of the script that returns has done. *)
Lemma main_Ok_inv w w' :
  main w = (Ok tt, w') ->
  let img := labelled (chosen_font w) in
  exists w2,
    writable w source_path = true /\
    for_each (Py.items icons) (write_icon output_dir img)
      (printed (saved w source_path "PNG" img) source_line)
    = (Ok tt, w2) /\
    w' = printed w2 summary_line.
Proof.
  rewrite main_unfold, main_with_font_unfold. intros Hrun.
  apply bind_Ok_inv in Hrun as ([] & w1 & Hsave & Hrun).
  apply bind_Ok_inv in Hrun as ([] & w2 & Hloop & Hprint).
  rewrite save_source_spec in Hsave.
  destruct (writable w source_path); [|discriminate].
  injection Hsave as <-. injection Hprint as <-.
  exists w2. auto.
Qed.

End Placeholder.

(** ** generate_icons.py, statement by statement *)

Section Generate.

Context `{Pillow}.
Variable script : string.
Import GenerateIcons.

Lemma main_unfold_generate w :
  main script w
  = bind (Image_open (source_icon script))
      (fun img => bind (for_each (Py.items icons) (write_icon (output_dir script) img))
                    (fun _ => print summary_line))
      (printed w (loading_line (source_icon script))).
Proof. reflexivity. Qed.

Lemma Image_open_Ok_inv fp w img w1 :
  Image_open fp w = (Ok img, w1) ->
  w1 = w /\ exists format, fs w !! fp = Some (ImageFile format img).
Proof.
  unfold Image_open. destruct (fs w !! fp) as [[format im| | |]|]; try discriminate.
  intros [= <- <-]. eauto.
Qed.

Lemma generate_main_Ok_inv w w' :
  main script w = (Ok tt, w') ->
  exists format img w2,
    fs w !! source_icon script = Some (ImageFile format img) /\
    for_each (Py.items icons) (write_icon (output_dir script) img)
      (printed w (loading_line (source_icon script))) = (Ok tt, w2) /\
    w' = printed w2 summary_line.
Proof.
  rewrite main_unfold_generate. intros Hrun.
  apply bind_Ok_inv in Hrun as (img & w1 & Hopen & Hrun).
  apply bind_Ok_inv in Hrun as ([] & w2 & Hloop & Hprint).
  apply Image_open_Ok_inv in Hopen as [-> [format Hfile]].
  injection Hprint as <-.
  exists format, img, w2. auto.
Qed.

End Generate.

(** ** What the loop leaves behind *)

Section Outputs.

Context `{Pillow}.

(** After a loop that returned, every manifest entry's path holds the PNG
    of the source resized to the entry's edge length. *)
Lemma loop_files dir img w w2 :
  for_each (Py.items GenerateIcons.icons) (write_icon dir img) w = (Ok tt, w2) ->
  forall item, item ∈ Py.items GenerateIcons.icons ->
    exists r, resize img (snd item, snd item) LANCZOS = Ok r /\
              fs w2 !! icon_path dir item = Some (ImageFile "PNG" r).
Proof.
  intros Hloop.
  apply write_icons_Ok_inv in Hloop as (_ & _ & _ & _ & Hfiles).
  apply Hfiles, icon_paths_NoDup.
Qed.

Lemma generate_files script w w' :
  GenerateIcons.main script w = (Ok tt, w') ->
  exists format img,
    fs w !! GenerateIcons.source_icon script = Some (ImageFile format img) /\
    forall item, item ∈ Py.items GenerateIcons.icons ->
      exists r, resize img (snd item, snd item) LANCZOS = Ok r /\
        fs w' !! icon_path (GenerateIcons.output_dir script) item = Some (ImageFile "PNG" r).
Proof.
  intros (format & img & w2 & Hsrc & Hloop & ->)%generate_main_Ok_inv.
  exists format, img. split; [exact Hsrc|]. exact (loop_files _ _ _ _ Hloop).
Qed.

Lemma placeholder_files w w' :
  CreatePlaceholderIcon.main w = (Ok tt, w') ->
  forall item, item ∈ Py.items CreatePlaceholderIcon.icons ->
    exists r, resize (labelled (chosen_font w)) (snd item, snd item) LANCZOS = Ok r /\
      fs w' !! icon_path CreatePlaceholderIcon.output_dir item = Some (ImageFile "PNG" r).
Proof.
  intros (w2 & _ & Hloop & ->)%main_Ok_inv.
  exact (loop_files _ _ _ _ Hloop).
Qed.

End Outputs.

(** C1: after a run of either script that returns, every one of the 17
    manifest entries has its file in the output directory, and the image in
    that file is as wide and as high as the entry's edge length. *)
Theorem outputs_exist_with_size `{Pillow} :
  length (Py.items GenerateIcons.icons) = 17%nat /\
  length (Py.items CreatePlaceholderIcon.icons) = 17%nat /\
  (forall script w w',
     GenerateIcons.main script w = (Ok tt, w') ->
     forall filename size, (filename, size) ∈ Py.items GenerateIcons.icons ->
       exists im,
         fs w' !! Py.os_path_join (GenerateIcons.output_dir script) filename
           = Some (ImageFile "PNG" im) /\
         width im = size /\ height im = size) /\
  (forall w w',
     CreatePlaceholderIcon.main w = (Ok tt, w') ->
     forall filename icon_size, (filename, icon_size) ∈ Py.items CreatePlaceholderIcon.icons ->
       exists im,
         fs w' !! Py.os_path_join CreatePlaceholderIcon.output_dir filename
           = Some (ImageFile "PNG" im) /\
         width im = icon_size /\ height im = icon_size).
Proof.
  split; [reflexivity|]. split; [reflexivity|]. split.
  - intros script w w' Hrun filename sz Hin.
    destruct (generate_files _ _ _ Hrun) as (format & img & _ & Hfiles).
    destruct (Hfiles _ Hin) as (r & Hr & Hfile).
    exists r. split; [exact Hfile|].
    apply resize_size in Hr. unfold width, height. now rewrite Hr.
  - intros w w' Hrun filename sz Hin.
    destruct (placeholder_files _ _ Hrun _ Hin) as (r & Hr & Hfile).
    exists r. split; [exact Hfile|].
    apply resize_size in Hr. unfold width, height. now rewrite Hr.
Qed.

Lemma outputs_exist_with_size_witness :
  (exists im,
     fs (snd (GenerateIcons.main (H := StandIn.pillow) StandIn.script StandIn.world_with_source))
       !! Py.os_path_join (GenerateIcons.output_dir StandIn.script) "icon_60x60@3x.png"
       = Some (ImageFile "PNG" im) /\ width im = 180 /\ height im = 180) /\
  (exists im,
     fs (snd (CreatePlaceholderIcon.main (H := StandIn.pillow) StandIn.empty_world))
       !! Py.os_path_join CreatePlaceholderIcon.output_dir "icon_83.5x83.5@2x.png"
       = Some (ImageFile "PNG" im) /\ width im = 167 /\ height im = 167).
Proof.
  destruct (outputs_exist_with_size (H := StandIn.pillow)) as (_ & _ & Hgen & Hph).
  split.
  - apply (Hgen StandIn.script StandIn.world_with_source
             (snd (GenerateIcons.main (H := StandIn.pillow) StandIn.script
                     StandIn.world_with_source))).
    + apply returned. vm_compute. reflexivity.
    + apply (bool_decide_unpack _). vm_compute. exact I.
  - apply (Hph StandIn.empty_world
             (snd (CreatePlaceholderIcon.main (H := StandIn.pillow) StandIn.empty_world))).
    + apply returned. vm_compute. reflexivity.
    + apply (bool_decide_unpack _). vm_compute. exact I.
Defined.

(** C9: the placeholder source image is a 1024 by 1024 square.  The canvas
    of line 10 has that size and every pixel of it is the one background
    colour; drawing the label keeps the size; it is this image the script
    goes on with, and a run that returns has saved it, 1024 by 1024, as
    icon_1024x1024.png. *)
Theorem placeholder_canvas `{Pillow} (w : World) :
  exists canvas,
    CreatePlaceholderIcon.new_canvas w = (Ok canvas, w) /\
    width canvas = 1024 /\ height canvas = 1024 /\
    (forall x y, getpixel canvas (x, y) = (0, 122, 255)) /\
    (forall font, exists img,
       CreatePlaceholderIcon.draw_label canvas font w = (Ok img, w) /\
       width img = 1024 /\ height img = 1024) /\
    CreatePlaceholderIcon.main w
      = bind CreatePlaceholderIcon.load_font (CreatePlaceholderIcon.main_with_font canvas) w /\
    (forall w', CreatePlaceholderIcon.main w = (Ok tt, w') ->
       exists img,
         fs w' !! Py.os_path_join CreatePlaceholderIcon.output_dir "icon_1024x1024.png"
           = Some (ImageFile "PNG" img) /\
         width img = 1024 /\ height img = 1024).
Proof.
  exists blue_canvas. repeat split.
  - intros font. exists (labelled font). repeat split.
  - intros w' (w2 & _ & Hloop & ->)%main_Ok_inv.
    exists (labelled (chosen_font w)). repeat split.
    apply write_icons_Ok_inv in Hloop as (_ & _ & _ & Hother & _).
    simpl. fold source_path. rewrite Hother.
    + apply lookup_insert_eq.
    + apply (bool_decide_unpack _). vm_compute. exact I.
Qed.

Lemma placeholder_canvas_witness :
  exists img,
    fs (snd (CreatePlaceholderIcon.main (H := StandIn.pillow) StandIn.empty_world))
      !! "MeetingCopilot/Assets.xcassets/AppIcon.appiconset/icon_1024x1024.png"
      = Some (ImageFile "PNG" img) /\
    width img = 1024 /\ height img = 1024.
Proof.
  destruct (placeholder_canvas (H := StandIn.pillow) StandIn.empty_world)
    as (canvas & _ & _ & _ & _ & _ & _ & Hsaved).
  apply (Hsaved (snd (CreatePlaceholderIcon.main (H := StandIn.pillow) StandIn.empty_world))).
  apply returned. vm_compute. reflexivity.
Defined.

(** C7: the two scripts have the same manifest, entry for entry and in the
    same order, and their loop bodies are the same statement up to the
    output directory; so, run on the same source image in the same world,
    the two loops print the same lines and leave the same image under every
    manifest file name, each in its own output directory. *)
Theorem manifests_agree `{Pillow} :
  GenerateIcons.icons = CreatePlaceholderIcon.icons /\
  (forall script img,
     GenerateIcons.loop_body script img = write_icon (GenerateIcons.output_dir script) img /\
     CreatePlaceholderIcon.loop_body img = write_icon CreatePlaceholderIcon.output_dir img) /\
  (forall script img w wg wp,
     GenerateIcons.resize_loop script img w = (Ok tt, wg) ->
     CreatePlaceholderIcon.resize_loop img w = (Ok tt, wp) ->
     stdout wg = stdout wp /\
     forall filename, filename ∈ Py.keys GenerateIcons.icons ->
       exists im,
         fs wg !! Py.os_path_join (GenerateIcons.output_dir script) filename
           = Some (ImageFile "PNG" im) /\
         fs wp !! Py.os_path_join CreatePlaceholderIcon.output_dir filename
           = Some (ImageFile "PNG" im)).
Proof.
  split; [reflexivity|]. split; [intros; split; reflexivity|].
  intros script img w wg wp Hg Hp.
  change (for_each (Py.items GenerateIcons.icons)
            (write_icon (GenerateIcons.output_dir script) img) w = (Ok tt, wg)) in Hg.
  change (for_each (Py.items GenerateIcons.icons)
            (write_icon CreatePlaceholderIcon.output_dir img) w = (Ok tt, wp)) in Hp.
  split.
  - apply write_icons_Ok_inv in Hg as (_ & -> & _).
    apply write_icons_Ok_inv in Hp as (_ & -> & _). reflexivity.
  - intros filename (item & -> & Hin)%list_elem_of_fmap.
    destruct (loop_files _ _ _ _ Hg item Hin) as (r & Hr & Hfg).
    destruct (loop_files _ _ _ _ Hp item Hin) as (r' & Hr' & Hfp).
    rewrite Hr in Hr'. injection Hr' as <-.
    exists r. split; assumption.
Qed.

Lemma manifests_agree_witness :
  let img := StandIn.gradient 512 512 in
  let wg := snd (GenerateIcons.resize_loop (H := StandIn.pillow) StandIn.script img
                   StandIn.empty_world) in
  let wp := snd (CreatePlaceholderIcon.resize_loop (H := StandIn.pillow) img
              StandIn.empty_world) in
  stdout wg = stdout wp /\
  forall filename, filename ∈ Py.keys GenerateIcons.icons ->
    exists im,
      fs wg !! Py.os_path_join (GenerateIcons.output_dir StandIn.script) filename
        = Some (ImageFile "PNG" im) /\
      fs wp !! Py.os_path_join CreatePlaceholderIcon.output_dir filename
        = Some (ImageFile "PNG" im).
Proof.
  destruct (manifests_agree (H := StandIn.pillow)) as (_ & _ & Hloops).
  intros img wg wp. subst wg wp.
  apply (Hloops StandIn.script img StandIn.empty_world
           (snd (GenerateIcons.resize_loop (H := StandIn.pillow) StandIn.script img
                   StandIn.empty_world))
           (snd (CreatePlaceholderIcon.resize_loop (H := StandIn.pillow) img
                   StandIn.empty_world)));
    apply returned; vm_compute; reflexivity.
Defined.

(** C10: the edge length 40 occurs three times in the manifest and 58, 80
    and 120 twice each; after a run of either script that returns, any two
    entries with the same edge length have the same image in their files. *)
Theorem shared_edge_lengths `{Pillow} :
  (count_occ Z.eq_dec (Py.values GenerateIcons.icons) 40 = 3%nat /\
   count_occ Z.eq_dec (Py.values GenerateIcons.icons) 58 = 2%nat /\
   count_occ Z.eq_dec (Py.values GenerateIcons.icons) 80 = 2%nat /\
   count_occ Z.eq_dec (Py.values GenerateIcons.icons) 120 = 2%nat) /\
  (count_occ Z.eq_dec (Py.values CreatePlaceholderIcon.icons) 40 = 3%nat /\
   count_occ Z.eq_dec (Py.values CreatePlaceholderIcon.icons) 58 = 2%nat /\
   count_occ Z.eq_dec (Py.values CreatePlaceholderIcon.icons) 80 = 2%nat /\
   count_occ Z.eq_dec (Py.values CreatePlaceholderIcon.icons) 120 = 2%nat) /\
  (forall script w w',
     GenerateIcons.main script w = (Ok tt, w') ->
     forall filename1 filename2 size,
       (filename1, size) ∈ Py.items GenerateIcons.icons ->
       (filename2, size) ∈ Py.items GenerateIcons.icons ->
       exists im,
         fs w' !! Py.os_path_join (GenerateIcons.output_dir script) filename1
           = Some (ImageFile "PNG" im) /\
         fs w' !! Py.os_path_join (GenerateIcons.output_dir script) filename2
           = Some (ImageFile "PNG" im)) /\
  (forall w w',
     CreatePlaceholderIcon.main w = (Ok tt, w') ->
     forall filename1 filename2 icon_size,
       (filename1, icon_size) ∈ Py.items CreatePlaceholderIcon.icons ->
       (filename2, icon_size) ∈ Py.items CreatePlaceholderIcon.icons ->
       exists im,
         fs w' !! Py.os_path_join CreatePlaceholderIcon.output_dir filename1
           = Some (ImageFile "PNG" im) /\
         fs w' !! Py.os_path_join CreatePlaceholderIcon.output_dir filename2
           = Some (ImageFile "PNG" im)).
Proof.
  split; [repeat split|]. split; [repeat split|]. split.
  - intros script w w' Hrun f1 f2 sz H1 H2.
    destruct (generate_files _ _ _ Hrun) as (format & img & _ & Hfiles).
    destruct (Hfiles _ H1) as (r1 & Hr1 & Hf1).
    destruct (Hfiles _ H2) as (r2 & Hr2 & Hf2).
    simpl in Hr1, Hr2. rewrite Hr1 in Hr2. injection Hr2 as <-.
    exists r1. split; assumption.
  - intros w w' Hrun f1 f2 sz H1 H2.
    destruct (placeholder_files _ _ Hrun _ H1) as (r1 & Hr1 & Hf1).
    destruct (placeholder_files _ _ Hrun _ H2) as (r2 & Hr2 & Hf2).
    simpl in Hr1, Hr2. rewrite Hr1 in Hr2. injection Hr2 as <-.
    exists r1. split; assumption.
Qed.

Lemma shared_edge_lengths_witness :
  (exists im,
     fs (snd (GenerateIcons.main (H := StandIn.pillow) StandIn.script StandIn.world_with_source))
       !! Py.os_path_join (GenerateIcons.output_dir StandIn.script) "icon_40x40@3x.png"
       = Some (ImageFile "PNG" im) /\
     fs (snd (GenerateIcons.main (H := StandIn.pillow) StandIn.script StandIn.world_with_source))
       !! Py.os_path_join (GenerateIcons.output_dir StandIn.script) "icon_60x60@2x.png"
       = Some (ImageFile "PNG" im)) /\
  (exists im,
     fs (snd (CreatePlaceholderIcon.main (H := StandIn.pillow) StandIn.empty_world))
       !! Py.os_path_join CreatePlaceholderIcon.output_dir "icon_20x20@2x.png"
       = Some (ImageFile "PNG" im) /\
     fs (snd (CreatePlaceholderIcon.main (H := StandIn.pillow) StandIn.empty_world))
       !! Py.os_path_join CreatePlaceholderIcon.output_dir "icon_40x40.png"
       = Some (ImageFile "PNG" im)).
Proof.
  destruct (shared_edge_lengths (H := StandIn.pillow)) as (_ & _ & Hgen & Hph).
  split.
  - apply (Hgen StandIn.script StandIn.world_with_source
             (snd (GenerateIcons.main (H := StandIn.pillow) StandIn.script
                     StandIn.world_with_source))
             ltac:(apply returned; vm_compute; reflexivity)
             "icon_40x40@3x.png" "icon_60x60@2x.png" 120);
      apply (bool_decide_unpack _); vm_compute; exact I.
  - apply (Hph StandIn.empty_world
             (snd (CreatePlaceholderIcon.main (H := StandIn.pillow) StandIn.empty_world))
             ltac:(apply returned; vm_compute; reflexivity)
             "icon_20x20@2x.png" "icon_40x40.png" 40);
      apply (bool_decide_unpack _); vm_compute; exact I.
Defined.

(** ** The source icon is not one of the outputs *)

Lemma append_nil_inv (a b : string) : a ++ b = "" -> b = "".
Proof. destruct a; [tauto | discriminate]. Qed.

Lemma endswith_sep_app a b : b <> "" -> Py.endswith_sep (a ++ b) = Py.endswith_sep b.
Proof.
  intros Hb. induction a as [|c a IH]; [reflexivity|].
  change (String c a ++ b) with (String c (a ++ b)).
  destruct (a ++ b) as [|c' s] eqn:Hab.
  - now apply append_nil_inv in Hab.
  - exact IH.
Qed.

Lemma join_prefix_app a b :
  b <> "" -> Py.endswith_sep b = false -> join_prefix (a ++ b) = (a ++ b) ++ "/".
Proof.
  intros Hb Hend. unfold join_prefix. rewrite endswith_sep_app, Hend by exact Hb.
  destruct (a ++ b) as [|c s] eqn:Hab; [now apply append_nil_inv in Hab | reflexivity].
Qed.

Lemma join_join base rel name :
  rel <> "" -> Py.startswith_sep rel = false -> Py.endswith_sep rel = false ->
  Py.startswith_sep name = false ->
  Py.os_path_join (Py.os_path_join base rel) name = join_prefix base ++ rel ++ "/" ++ name.
Proof.
  intros Hne Hrel Hend Hname.
  rewrite (join_relative base rel Hrel), (join_relative _ name Hname).
  rewrite join_prefix_app by assumption. now rewrite !append_assoc.
Qed.

Lemma source_not_an_output script :
  GenerateIcons.source_icon script
    ∉ (icon_path (GenerateIcons.output_dir script) <$> Py.items GenerateIcons.icons).
Proof.
  intros (item & Heq & Hin)%list_elem_of_fmap.
  pose proof keys_relative as Hrel. rewrite Forall_forall in Hrel.
  specialize (Hrel _ (item_key _ _ Hin)).
  unfold icon_path, GenerateIcons.output_dir, GenerateIcons.source_icon in Heq.
  rewrite join_join in Heq by (reflexivity || discriminate || exact Hrel).
  rewrite join_relative in Heq by reflexivity.
  apply String.app_inj in Heq.
  change "MeetingCopilot/Assets.xcassets/AppIcon.appiconset/icon_1024x1024.png"
    with ("MeetingCopilot/Assets.xcassets/AppIcon.appiconset" ++ "/" ++ "icon_1024x1024.png")
    in Heq.
  do 2 apply String.app_inj in Heq.
  apply source_name_not_a_key. rewrite Heq. now apply item_key.
Qed.

Lemma Image_open_world fp w : snd (Image_open fp w) = w.
Proof. unfold Image_open. destruct (fs w !! fp) as [[| | |]|]; reflexivity. Qed.

Lemma Image_open_fs fp w1 w2 :
  fs w1 !! fp = fs w2 !! fp -> fst (Image_open fp w1) = fst (Image_open fp w2).
Proof.
  intros Hfs. unfold Image_open. rewrite Hfs.
  destruct (fs w2 !! fp) as [[| | |]|]; reflexivity.
Qed.

(** C3: when the source icon cannot be opened, generate_icons.py stops
    there with the exception of [Image.open]: the exception reaches the top
    of the script, the exit status is 1, only the "Loading" line has been
    printed, and the file system is what it was; in particular no manifest
    file was written. *)
Theorem source_unreadable_is_fatal `{Pillow} script w e :
  fst (Image_open (GenerateIcons.source_icon script) w) = Raised e ->
  exists w',
    GenerateIcons.main script w = (Raised e, w') /\
    exit_status (fst (GenerateIcons.main script w)) = 1 /\
    fs w' = fs w /\
    stdout w' = (stdout w ++ [loading_line (GenerateIcons.source_icon script)])%list /\
    forall filename, filename ∈ Py.keys GenerateIcons.icons ->
      fs w' !! Py.os_path_join (GenerateIcons.output_dir script) filename
      = fs w !! Py.os_path_join (GenerateIcons.output_dir script) filename.
Proof.
  intros Hopen.
  set (w0 := printed w (loading_line (GenerateIcons.source_icon script))).
  assert (Hopen0 : Image_open (GenerateIcons.source_icon script) w0 = (Raised e, w0)).
  { pose proof (Image_open_world (GenerateIcons.source_icon script) w0) as Hw.
    pose proof (Image_open_fs (GenerateIcons.source_icon script) w0 w eq_refl) as Hr.
    rewrite Hopen in Hr.
    destruct (Image_open (GenerateIcons.source_icon script) w0) as [o w1].
    simpl in *. now subst. }
  assert (Hmain : GenerateIcons.main script w = (Raised e, w0)).
  { rewrite main_unfold_generate. now apply bind_Raised. }
  exists w0. rewrite Hmain. repeat split.
Qed.

Lemma source_unreadable_is_fatal_witness :
  exists w',
    GenerateIcons.main (H := StandIn.pillow) StandIn.script StandIn.empty_world
      = (Raised (FileNotFoundError (GenerateIcons.source_icon StandIn.script)), w') /\
    exit_status (fst (GenerateIcons.main (H := StandIn.pillow) StandIn.script
                        StandIn.empty_world)) = 1 /\
    fs w' = fs StandIn.empty_world /\
    stdout w' = [loading_line (GenerateIcons.source_icon StandIn.script)] /\
    forall filename, filename ∈ Py.keys GenerateIcons.icons ->
      fs w' !! Py.os_path_join (GenerateIcons.output_dir StandIn.script) filename
      = fs StandIn.empty_world !! Py.os_path_join (GenerateIcons.output_dir StandIn.script) filename.
Proof.
  apply (source_unreadable_is_fatal (H := StandIn.pillow) StandIn.script StandIn.empty_world).
  vm_compute. reflexivity.
Defined.

(** ** Which failures stop a run *)

Section Failures.

Context `{Pillow}.

(** The placeholder script returns when its 18 paths may be written, and
    prints one line per file and the summary. *)
Lemma placeholder_returns w :
  writable w source_path = true ->
  (forall item, item ∈ Py.items CreatePlaceholderIcon.icons ->
     writable w (icon_path CreatePlaceholderIcon.output_dir item) = true) ->
  exists w',
    CreatePlaceholderIcon.main w = (Ok tt, w') /\
    stdout w' = (stdout w ++ [source_line]
                 ++ (created_line <$> Py.items CreatePlaceholderIcon.icons)
                 ++ [summary_line])%list.
Proof.
  intros Hsrc Hall.
  set (img := labelled (chosen_font w)).
  set (w1 := printed (saved w source_path "PNG" img) source_line).
  destruct (labelled_ready (chosen_font w)) as [Hload Hmode].
  destruct (write_icons_run CreatePlaceholderIcon.output_dir img
              (Py.items CreatePlaceholderIcon.icons) w1 Hload Hmode) as [w2 Hloop].
  { intros item Hin. split; [apply item_size_in_range, Hin | now apply Hall]. }
  exists (printed w2 summary_line). split.
  - rewrite main_unfold, main_with_font_unfold.
    assert (Hsave : CreatePlaceholderIcon.save_source img w = (Ok tt, w1)).
    { unfold img. rewrite save_source_spec. now rewrite Hsrc. }
    rewrite (bind_Ok _ _ _ _ _ Hsave), (bind_Ok _ _ _ _ _ Hloop). reflexivity.
  - apply write_icons_Ok_inv in Hloop as (_ & Hout & _).
    simpl. rewrite Hout. simpl. now rewrite <- !app_assoc.
Qed.

(** It returns only if all of them could be written. *)
Lemma placeholder_returns_only_if w w' :
  CreatePlaceholderIcon.main w = (Ok tt, w') ->
  writable w source_path = true /\
  forall item, item ∈ Py.items CreatePlaceholderIcon.icons ->
    writable w (icon_path CreatePlaceholderIcon.output_dir item) = true.
Proof.
  intros (w2 & Hsrc & Hloop & _)%main_Ok_inv. split; [exact Hsrc|].
  apply write_icons_Ok_inv in Hloop as (_ & _ & Hall & _). exact Hall.
Qed.

(** generate_icons.py returns only if the source could be opened and every
    output could be written. *)
Lemma generate_returns_only_if script w w' :
  GenerateIcons.main script w = (Ok tt, w') ->
  (exists format img, fs w !! GenerateIcons.source_icon script = Some (ImageFile format img)) /\
  forall item, item ∈ Py.items GenerateIcons.icons ->
    writable w (icon_path (GenerateIcons.output_dir script) item) = true.
Proof.
  intros (format & img & w2 & Hsrc & Hloop & _)%generate_main_Ok_inv.
  split; [eauto|].
  apply write_icons_Ok_inv in Hloop as (_ & _ & Hall & _). exact Hall.
Qed.

End Failures.

(** C4: when Helvetica cannot be loaded at size 400, whatever the exception,
    lines 14-17 end with the default font and have printed and written
    nothing; the script goes on exactly as it does with that font, and where
    its 18 paths may be written it returns, exit status 0, having printed
    the 18 "Created" lines and the summary and nothing about the font.  No
    other failure is caught, in either script: a run returns only if every
    save was permitted and, for generate_icons.py, the source was opened. *)
Theorem font_fallback `{Pillow} w e :
  fst (ImageFont_truetype "/System/Library/Fonts/Helvetica.ttc" 400 w) = Raised e ->
  CreatePlaceholderIcon.load_font w = (Ok DefaultFont, w) /\
  CreatePlaceholderIcon.main w
    = bind CreatePlaceholderIcon.new_canvas
        (fun img => CreatePlaceholderIcon.main_with_font img DefaultFont) w /\
  (writable w source_path = true ->
   (forall filename, filename ∈ Py.keys CreatePlaceholderIcon.icons ->
      writable w (Py.os_path_join CreatePlaceholderIcon.output_dir filename) = true) ->
   exists w',
     CreatePlaceholderIcon.main w = (Ok tt, w') /\
     exit_status (fst (CreatePlaceholderIcon.main w)) = 0 /\
     stdout w' = (stdout w ++ [source_line]
                  ++ (created_line <$> Py.items CreatePlaceholderIcon.icons)
                  ++ [summary_line])%list) /\
  (forall w0 w',
     CreatePlaceholderIcon.main w0 = (Ok tt, w') ->
     writable w0 source_path = true /\
     forall filename, filename ∈ Py.keys CreatePlaceholderIcon.icons ->
       writable w0 (Py.os_path_join CreatePlaceholderIcon.output_dir filename) = true) /\
  (forall script w0 w',
     GenerateIcons.main script w0 = (Ok tt, w') ->
     (exists format img,
        fs w0 !! GenerateIcons.source_icon script = Some (ImageFile format img)) /\
     forall filename, filename ∈ Py.keys GenerateIcons.icons ->
       writable w0 (Py.os_path_join (GenerateIcons.output_dir script) filename) = true).
Proof.
  intros Hfont.
  assert (Hchosen : chosen_font w = DefaultFont).
  { unfold chosen_font, helvetica. now rewrite Hfont. }
  split; [|split; [|split; [|split]]].
  - now rewrite load_font_spec, Hchosen.
  - rewrite main_unfold, Hchosen. symmetry.
    exact (bind_Ok _ (fun img => CreatePlaceholderIcon.main_with_font img DefaultFont)
             w blue_canvas w (new_canvas_spec w)).
  - intros Hsrc Hall.
    destruct (placeholder_returns w Hsrc) as (w' & Hrun & Hout).
    { intros item Hin. apply Hall. now apply item_key. }
    exists w'. rewrite Hrun. auto.
  - intros w0 w' [Hsrc Hall]%placeholder_returns_only_if. split; [exact Hsrc|].
    intros filename (item & -> & Hin)%list_elem_of_fmap. now apply Hall.
  - intros script w0 w' [Hsrc Hall]%generate_returns_only_if. split; [exact Hsrc|].
    intros filename (item & -> & Hin)%list_elem_of_fmap. now apply Hall.
Qed.

Lemma font_fallback_witness :
  CreatePlaceholderIcon.load_font StandIn.empty_world
    = (Ok DefaultFont, StandIn.empty_world) /\
  exists w',
    CreatePlaceholderIcon.main (H := StandIn.pillow) StandIn.empty_world = (Ok tt, w') /\
    exit_status (fst (CreatePlaceholderIcon.main (H := StandIn.pillow) StandIn.empty_world)) = 0 /\
    stdout w' = ([source_line]
                 ++ (created_line <$> Py.items CreatePlaceholderIcon.icons)
                 ++ [summary_line])%list.
Proof.
  destruct (font_fallback (H := StandIn.pillow) StandIn.empty_world
              (OSError "cannot open resource") ltac:(vm_compute; reflexivity))
    as (Hload & _ & Hruns & _).
  split; [exact Hload|].
  apply Hruns; [reflexivity | intros; reflexivity].
Defined.

(** ** The loop, whatever its outcome *)

Lemma for_each_app {A} (xs ys : list A) (body : A -> M unit) : forall w,
  for_each (xs ++ ys) body w = bind (for_each xs body) (fun _ => for_each ys body) w.
Proof.
  induction xs as [|x xs IH]; intros w; [reflexivity|].
  simpl. unfold bind. destruct (body x w) as [[[]|e] w1]; [|reflexivity].
  rewrite IH. reflexivity.
Qed.

Lemma broken_off_ne fp p (files : gmap string file) :
  p <> fp -> broken_off fp files !! p = files !! p.
Proof.
  intros Hne. unfold broken_off. destruct (files !! fp); [|reflexivity].
  now apply lookup_insert_ne.
Qed.

Section LoopOutcomes.

Context `{Pillow}.
Variables (dir : string) (img : Image).

(** How an iteration for a size of at least 1 can fail: the pixels of the
    source do not load; or the path may not be written, and nothing was
    touched; or the encoder has no PNG form for the mode, and the save
    broke off. *)
Lemma write_icon_Raised_inv item w e w1 :
  1 <= snd item ->
  write_icon dir img item w = (Raised e, w1) ->
  (load_error img = Some e /\ w1 = w) \/
  (load_error img = None /\ writable w (icon_path dir item) = false /\
   e = write_error w (icon_path dir item) /\ w1 = w) \/
  (load_error img = None /\ writable w (icon_path dir item) = true /\
   png_mode (Image_mode img) = false /\
   e = OSError "cannot write mode as PNG" /\
   w1 = save_broken_off w (icon_path dir item)).
Proof.
  intros Hsz. unfold write_icon, bind, Image_resize, Image_save, print.
  fold (icon_path dir item).
  destruct (resize img _ LANCZOS) as [r|e'] eqn:Hr.
  - destruct (resize_mode _ _ _ _ Hr) as (Hmode & -> & Hload). rewrite Hmode.
    destruct (writable w (icon_path dir item)); simpl.
    + destruct (png_mode (Image_mode img)); [discriminate|].
      intros [= <- <-]. right. right. auto.
    + intros [= <- <-]. right. left. auto.
  - intros [= <- <-]. left. split; [|reflexivity].
    exact (resize_Raised img (snd item, snd item) LANCZOS e' Hsz Hsz Hr).
Qed.

(** Whatever its outcome, an iteration leaves the permissions and every
    path but its own alone, and only adds to the console. *)
Lemma write_icon_frame item w o w1 :
  write_icon dir img item w = (o, w1) ->
  writable w1 = writable w /\
  write_error w1 = write_error w /\
  stdout w `prefix_of` stdout w1 /\
  forall p, p <> icon_path dir item -> fs w1 !! p = fs w !! p.
Proof.
  unfold write_icon, bind, Image_resize, Image_save, print. fold (icon_path dir item).
  destruct (resize img _ LANCZOS) as [r|e'];
    [destruct (load_error r);
       [|destruct (writable w (icon_path dir item)); simpl;
           [destruct (png_mode (Image_mode r))|]]|];
    intros [= <- <-]; simpl; (split; [reflexivity|]); (split; [reflexivity|]);
    (split; [try reflexivity; now apply prefix_app_r|]); intros p Hne;
    try reflexivity.
  - now apply lookup_insert_ne.
  - now apply broken_off_ne.
Qed.

Lemma write_icons_frame items : forall w o w',
  for_each items (write_icon dir img) w = (o, w') ->
  writable w' = writable w /\
  write_error w' = write_error w /\
  stdout w `prefix_of` stdout w' /\
  forall p, p ∉ (icon_path dir <$> items) -> fs w' !! p = fs w !! p.
Proof.
  induction items as [|item0 items IH]; intros w o w' Hrun.
  - injection Hrun as <- <-. repeat split; reflexivity.
  - simpl in Hrun. unfold bind in Hrun.
    destruct (write_icon dir img item0 w) as [o0 w1] eqn:H0.
    apply write_icon_frame in H0 as (Hwr0 & Hwe0 & Hpre0 & Hother0).
    destruct o0 as [[]|e].
    + apply IH in Hrun as (Hwr & Hwe & Hpre & Hother).
      split; [congruence|]. split; [congruence|].
      split; [etransitivity; [exact Hpre0 | exact Hpre]|].
      intros p [Hne Hnin]%not_elem_of_cons.
      rewrite Hother by exact Hnin. now apply Hother0.
    + injection Hrun as <- <-.
      split; [exact Hwr0|]. split; [exact Hwe0|]. split; [exact Hpre0|].
      intros p [Hne _]%not_elem_of_cons. now apply Hother0.
Qed.

(** The files that exist after a loop that returned. *)
Lemma write_icons_dom items : forall w w',
  for_each items (write_icon dir img) w = (Ok tt, w') ->
  dom (fs w') = dom (fs w) ∪ list_to_set (icon_path dir <$> items).
Proof.
  induction items as [|item0 items IH]; intros w w' Hrun.
  - injection Hrun as <-. simpl. now rewrite union_empty_r_L.
  - simpl in Hrun. apply bind_Ok_inv in Hrun as ([] & w1 & H0 & Hrest).
    apply write_icon_Ok_inv in H0 as (r0 & _ & _ & ->).
    apply IH in Hrest. rewrite Hrest. simpl. rewrite dom_insert_L.
    rewrite (union_comm_L {[icon_path dir item0]} (dom (fs w))).
    now rewrite union_assoc_L.
Qed.

(** A loop that raises has done some items and failed in the next. *)
Lemma write_icons_Raised_inv items : forall w e w',
  for_each items (write_icon dir img) w = (Raised e, w') ->
  exists done item rest w1,
    items = (done ++ item :: rest)%list /\
    for_each done (write_icon dir img) w = (Ok tt, w1) /\
    write_icon dir img item w1 = (Raised e, w').
Proof.
  induction items as [|item0 items IH]; intros w e w' Hrun; [discriminate|].
  simpl in Hrun. unfold bind in Hrun.
  destruct (write_icon dir img item0 w) as [[[]|e0] w0] eqn:H0.
  - apply IH in Hrun as (done & item & rest & w1 & -> & Hdone & Hitem).
    exists (item0 :: done), item, rest, w1. split; [reflexivity|]. split; [|exact Hitem].
    simpl. now rewrite (bind_Ok _ _ _ _ _ H0).
  - injection Hrun as <- <-. exists [], item0, items, w. auto.
Qed.

End LoopOutcomes.

(** ** A loop that fails *)

Lemma manifest_split dir done item rest :
  Py.items GenerateIcons.icons = (done ++ item :: rest)%list ->
  (forall d, d ∈ done -> 1 <= snd d) /\
  1 <= snd item /\
  NoDup (icon_path dir <$> done) /\
  (forall x, x ∈ item :: rest -> icon_path dir x ∉ (icon_path dir <$> done)) /\
  (forall x, x ∈ rest -> icon_path dir x <> icon_path dir item).
Proof.
  intros Hsplit.
  pose proof (icon_paths_NoDup dir) as Hnd. rewrite Hsplit, fmap_app in Hnd.
  apply NoDup_app in Hnd as (Hdone & Hdisj & Hlater).
  rewrite fmap_cons in Hlater. apply NoDup_cons in Hlater as [Hitem _].
  assert (Hin : forall x, x ∈ (done ++ item :: rest)%list -> 1 <= snd x).
  { intros x Hx. rewrite <- Hsplit in Hx. now apply item_size_in_range. }
  repeat split.
  - intros d Hd. apply Hin, elem_of_app. now left.
  - apply Hin, elem_of_app. right. apply elem_of_cons. now left.
  - exact Hdone.
  - intros x Hx Hdup. apply (Hdisj _ Hdup). now apply list_elem_of_fmap_2.
  - intros x Hx Heq. apply Hitem. rewrite <- Heq. now apply list_elem_of_fmap_2.
Qed.

Lemma broken_off_lookup fp (files files' : gmap string file) :
  files' !! fp = files !! fp -> broken_off fp files' !! fp = broken_off fp files !! fp.
Proof.
  intros Heq. unfold broken_off. rewrite Heq.
  destruct (files !! fp) eqn:Hfp; [now rewrite !lookup_insert_eq | now rewrite Heq, Hfp].
Qed.

Section LoopFails.

Context `{Pillow}.

(** What the loop of either script has done when it raises: the entries
    before the failing one are written and announced, those after it are
    untouched, and the failing one is untouched unless the encoder broke
    off.  A source that does not load or cannot be encoded fails at the
    first entry. *)
Lemma loop_failed dir img w e w' :
  for_each (Py.items GenerateIcons.icons) (write_icon dir img) w = (Raised e, w') ->
  exists done item rest,
    Py.items GenerateIcons.icons = (done ++ item :: rest)%list /\
    stdout w' = (stdout w ++ (created_line <$> done))%list /\
    (forall d, d ∈ done ->
       exists r, resize img (snd d, snd d) LANCZOS = Ok r /\
                 fs w' !! icon_path dir d = Some (ImageFile "PNG" r)) /\
    (forall x, x ∈ rest -> fs w' !! icon_path dir x = fs w !! icon_path dir x) /\
    ((load_error img = Some e /\ done = [] /\
      fs w' !! icon_path dir item = fs w !! icon_path dir item) \/
     (writable w (icon_path dir item) = false /\
      e = write_error w (icon_path dir item) /\
      fs w' !! icon_path dir item = fs w !! icon_path dir item) \/
     (png_mode (Image_mode img) = false /\ done = [] /\
      writable w (icon_path dir item) = true /\
      fs w' !! icon_path dir item = broken_off (icon_path dir item) (fs w) !! icon_path dir item)).
Proof.
  intros (done & item & rest & w1 & Hsplit & Hdone & Hitem)%write_icons_Raised_inv.
  destruct (manifest_split dir _ _ _ Hsplit) as (Hsz & Hsz0 & Hnd & Hlater & Hrest).
  exists done, item, rest. split; [exact Hsplit|].
  pose proof (write_icons_frame _ _ _ _ _ _ Hdone) as (Hwr & Hwe & _ & _).
  pose proof (write_icons_Ok_inv _ _ _ _ _ Hdone) as (_ & Hout & _ & Hother & Hfiles).
  specialize (Hfiles Hnd).
  assert (Hitem1 : fs w1 !! icon_path dir item = fs w !! icon_path dir item).
  { apply Hother, Hlater, elem_of_cons. now left. }
  assert (Hready : done <> [] -> load_error img = None /\ png_mode (Image_mode img) = true).
  { destruct done as [|d done]; [congruence|]. intros _.
    apply (write_icons_Ok_ready dir img (d :: done) w w1 d); [|exact Hdone].
    apply elem_of_cons. now left. }
  pose proof (write_icon_frame _ _ _ _ _ _ Hitem) as (_ & _ & _ & Hframe).
  assert (Hstd : stdout w' = stdout w1).
  { apply write_icon_Raised_inv in Hitem as [[_ ->]|[(_ & _ & _ & ->)|(_ & _ & _ & _ & ->)]];
      [reflexivity..|exact Hsz0]. }
  split; [now rewrite Hstd|]. split; [|split].
  - intros d Hd. destruct (Hfiles d Hd) as (r & Hr & Hfile).
    exists r. split; [exact Hr|]. rewrite Hframe; [exact Hfile|].
    intros Heq. apply (Hlater item); [apply elem_of_cons; now left|].
    rewrite <- Heq. now apply list_elem_of_fmap_2.
  - intros x Hx. rewrite Hframe by now apply Hrest.
    apply Hother, Hlater, elem_of_cons. now right.
  - apply write_icon_Raised_inv in Hitem
      as [[Hload ->]|[(Hload & Hw & -> & ->)|(Hload & Hw & Hmode & -> & ->)]];
      [| | |exact Hsz0].
    + left. split; [exact Hload|]. split; [|exact Hitem1].
      destruct done as [|d done]; [reflexivity|].
      destruct Hready as [Hl _]; congruence.
    + right. left. rewrite Hwr, Hwe in *. auto.
    + right. right. rewrite Hwr in Hw. split; [exact Hmode|]. split; [|split; [exact Hw|]].
      * destruct done as [|d done]; [reflexivity|].
        destruct Hready as [_ Hm]; congruence.
      * simpl. now apply broken_off_lookup.
Qed.

End LoopFails.


(** X1: a run of generate_icons.py that raises.  Either the source did not
    open, and nothing was written; or the loop failed at one entry of the
    manifest: the entries before it are written and announced, the entries
    after it are untouched and the summary is not printed, so nothing is
    rolled back.  The failing entry fails in one of three ways: the pixels
    of the source do not load, which happens at the first entry; its path
    may not be written, the exception is the operating system's and the
    path is untouched; or the PNG encoder does not write the source's mode,
    which happens at the first entry and leaves an icon that was there
    before empty. *)
Theorem generate_stops_where_it_fails `{Pillow} script w e w' :
  GenerateIcons.main script w = (Raised e, w') ->
  (fst (Image_open (GenerateIcons.source_icon script) w) = Raised e /\
   fs w' = fs w /\
   stdout w' = (stdout w ++ [loading_line (GenerateIcons.source_icon script)])%list) \/
  (exists img done item rest,
     fst (Image_open (GenerateIcons.source_icon script) w) = Ok img /\
     Py.items GenerateIcons.icons = (done ++ item :: rest)%list /\
     stdout w' = (stdout w ++ [loading_line (GenerateIcons.source_icon script)]
                  ++ (created_line <$> done))%list /\
     (forall d, d ∈ done ->
        exists r, resize img (snd d, snd d) LANCZOS = Ok r /\
          fs w' !! icon_path (GenerateIcons.output_dir script) d = Some (ImageFile "PNG" r)) /\
     (forall x, x ∈ rest ->
        fs w' !! icon_path (GenerateIcons.output_dir script) x
        = fs w !! icon_path (GenerateIcons.output_dir script) x) /\
     let p := icon_path (GenerateIcons.output_dir script) item in
     ((load_error img = Some e /\ done = [] /\ fs w' !! p = fs w !! p) \/
      (writable w p = false /\ e = write_error w p /\ fs w' !! p = fs w !! p) \/
      (png_mode (Image_mode img) = false /\ done = [] /\ writable w p = true /\
       fs w' !! p = broken_off p (fs w) !! p))).
Proof.
  rewrite main_unfold_generate. unfold bind at 1.
  set (w0 := printed w (loading_line (GenerateIcons.source_icon script))).
  pose proof (Image_open_world (GenerateIcons.source_icon script) w0) as Hw0.
  pose proof (Image_open_fs (GenerateIcons.source_icon script) w0 w eq_refl) as Hfst.
  destruct (Image_open (GenerateIcons.source_icon script) w0) as [[img|e0] w1];
    simpl in Hw0, Hfst; subst w1.
  - unfold bind.
    destruct (for_each (Py.items GenerateIcons.icons)
                (write_icon (GenerateIcons.output_dir script) img) w0)
      as [[[]|e1] w2] eqn:Hloop; [discriminate|].
    intros [= <- <-]. right.
    apply loop_failed in Hloop as (done & item & rest & Hsplit & Hout & Hfiles & Hrest & Hitem).
    exists img, done, item, rest. split; [now rewrite <- Hfst|]. split; [exact Hsplit|].
    split; [rewrite Hout; simpl; now rewrite <- app_assoc|].
    split; [exact Hfiles|]. split; [exact Hrest|]. exact Hitem.
  - intros [= <- <-]. left. split; [now rewrite <- Hfst|]. split; reflexivity.
Qed.

Lemma generate_stops_where_it_fails_witness :
  let w := Scenario.world_with_cmyk_source in
  let e := OSError "cannot write mode as PNG" in
  let w' := snd (GenerateIcons.main (H := StandIn.pillow) StandIn.script w) in
  (fst (Image_open (GenerateIcons.source_icon StandIn.script) w) = Raised e /\
   fs w' = fs w /\
   stdout w' = (stdout w ++ [loading_line (GenerateIcons.source_icon StandIn.script)])%list) \/
  (exists img done item rest,
     fst (Image_open (GenerateIcons.source_icon StandIn.script) w) = Ok img /\
     Py.items GenerateIcons.icons = (done ++ item :: rest)%list /\
     stdout w' = (stdout w ++ [loading_line (GenerateIcons.source_icon StandIn.script)]
                  ++ (created_line <$> done))%list /\
     (forall d, d ∈ done ->
        exists r, resize (H := StandIn.pillow) img (snd d, snd d) LANCZOS = Ok r /\
          fs w' !! icon_path (GenerateIcons.output_dir StandIn.script) d
          = Some (ImageFile "PNG" r)) /\
     (forall x, x ∈ rest ->
        fs w' !! icon_path (GenerateIcons.output_dir StandIn.script) x
        = fs w !! icon_path (GenerateIcons.output_dir StandIn.script) x) /\
     let p := icon_path (GenerateIcons.output_dir StandIn.script) item in
     ((load_error img = Some e /\ done = [] /\ fs w' !! p = fs w !! p) \/
      (writable w p = false /\ e = write_error w p /\ fs w' !! p = fs w !! p) \/
      (png_mode (Image_mode img) = false /\ done = [] /\ writable w p = true /\
       fs w' !! p = broken_off p (fs w) !! p))).
Proof.
  intros w e w'.
  apply (generate_stops_where_it_fails (H := StandIn.pillow) StandIn.script w e w').
  apply raised. vm_compute. reflexivity.
Defined.

(** X2: a run of create_placeholder_icon.py that raises has been refused a
    path, and the exception is the operating system's.  Either it was the
    path of the source image, and nothing was written or printed; or it was
    the path of a manifest entry: the source image and the entries before
    that one are written and announced, that entry and those after it are
    untouched.  The image the script draws is in memory and RGB, so neither
    loading nor encoding can fail. *)
Theorem placeholder_stops_where_it_fails `{Pillow} w e w' :
  CreatePlaceholderIcon.main w = (Raised e, w') ->
  (writable w source_path = false /\ e = write_error w source_path /\ w' = w) \/
  (exists done item rest,
     writable w source_path = true /\
     Py.items CreatePlaceholderIcon.icons = (done ++ item :: rest)%list /\
     writable w (icon_path CreatePlaceholderIcon.output_dir item) = false /\
     e = write_error w (icon_path CreatePlaceholderIcon.output_dir item) /\
     stdout w' = (stdout w ++ [source_line] ++ (created_line <$> done))%list /\
     fs w' !! source_path = Some (ImageFile "PNG" (labelled (chosen_font w))) /\
     (forall d, d ∈ done ->
        exists r, resize (labelled (chosen_font w)) (snd d, snd d) LANCZOS = Ok r /\
          fs w' !! icon_path CreatePlaceholderIcon.output_dir d = Some (ImageFile "PNG" r)) /\
     (forall x, x ∈ item :: rest ->
        fs w' !! icon_path CreatePlaceholderIcon.output_dir x
        = fs w !! icon_path CreatePlaceholderIcon.output_dir x)).
Proof.
  rewrite main_unfold, main_with_font_unfold. unfold bind at 1.
  rewrite save_source_spec.
  destruct (writable w source_path) eqn:Hsrc; [|intros [= <- <-]; now left].
  set (img := labelled (chosen_font w)).
  set (w0 := printed (saved w source_path "PNG" img) source_line).
  unfold bind.
  destruct (for_each (Py.items CreatePlaceholderIcon.icons)
              (write_icon CreatePlaceholderIcon.output_dir img) w0)
    as [[[]|e1] w2] eqn:Hloop; [discriminate|].
  intros [= <- <-]. right.
  pose proof (write_icons_frame _ _ _ _ _ _ Hloop) as (_ & _ & _ & Hframe).
  apply loop_failed in Hloop as (done & item & rest & Hsplit & Hout & Hfiles & Hrest & Hitem).
  change (Py.items GenerateIcons.icons) with (Py.items CreatePlaceholderIcon.icons) in Hsplit.
  assert (Hfresh : forall x, x ∈ Py.items CreatePlaceholderIcon.icons ->
            icon_path CreatePlaceholderIcon.output_dir x <> source_path).
  { intros x Hx Heq.
    assert (Hnot : source_path ∉ (icon_path CreatePlaceholderIcon.output_dir
                                    <$> Py.items CreatePlaceholderIcon.icons))
      by (apply (bool_decide_unpack _); vm_compute; exact I).
    apply Hnot. rewrite <- Heq. now apply list_elem_of_fmap_2. }
  assert (Hin0 : item ∈ Py.items CreatePlaceholderIcon.icons).
  { rewrite Hsplit. apply elem_of_app. right. apply elem_of_cons. now left. }
  destruct (labelled_ready (chosen_font w)) as [Hload Hmode]. fold img in Hload, Hmode.
  destruct Hitem as [(Hl & _)|[(Hw & He & Hp)|(Hm & _)]]; [congruence| |congruence].
  exists done, item, rest. simpl in Hw, He. repeat split; try assumption.
  - rewrite Hout. simpl. now rewrite <- app_assoc.
  - rewrite Hframe.
    + simpl. apply lookup_insert_eq.
    + apply (bool_decide_unpack _). vm_compute. exact I.
  - intros x [->|Hx]%elem_of_cons.
    + rewrite Hp. simpl. now apply lookup_insert_ne, not_eq_sym, Hfresh.
    + rewrite (Hrest x Hx). simpl. apply lookup_insert_ne, not_eq_sym, Hfresh.
      rewrite Hsplit. apply elem_of_app. right. apply elem_of_cons. now right.
Qed.

Lemma placeholder_stops_where_it_fails_witness :
  (writable Scenario.no_output_dir source_path = false /\
   FileNotFoundError source_path = write_error Scenario.no_output_dir source_path /\
   snd (CreatePlaceholderIcon.main (H := StandIn.pillow) Scenario.no_output_dir)
   = Scenario.no_output_dir) \/
  (exists done item rest,
     writable Scenario.no_output_dir source_path = true /\
     Py.items CreatePlaceholderIcon.icons = (done ++ item :: rest)%list /\
     writable Scenario.no_output_dir (icon_path CreatePlaceholderIcon.output_dir item) = false /\
     FileNotFoundError source_path
     = write_error Scenario.no_output_dir (icon_path CreatePlaceholderIcon.output_dir item) /\
     stdout (snd (CreatePlaceholderIcon.main (H := StandIn.pillow) Scenario.no_output_dir))
     = (stdout Scenario.no_output_dir ++ [source_line] ++ (created_line <$> done))%list /\
     fs (snd (CreatePlaceholderIcon.main (H := StandIn.pillow) Scenario.no_output_dir))
       !! source_path
     = Some (ImageFile "PNG" (labelled (H := StandIn.pillow)
                                (chosen_font Scenario.no_output_dir))) /\
     (forall d, d ∈ done ->
        exists r,
          resize (H := StandIn.pillow)
            (labelled (H := StandIn.pillow) (chosen_font Scenario.no_output_dir))
            (snd d, snd d) LANCZOS = Ok r /\
          fs (snd (CreatePlaceholderIcon.main (H := StandIn.pillow) Scenario.no_output_dir))
            !! icon_path CreatePlaceholderIcon.output_dir d = Some (ImageFile "PNG" r)) /\
     (forall x, x ∈ item :: rest ->
        fs (snd (CreatePlaceholderIcon.main (H := StandIn.pillow) Scenario.no_output_dir))
          !! icon_path CreatePlaceholderIcon.output_dir x
        = fs Scenario.no_output_dir !! icon_path CreatePlaceholderIcon.output_dir x)).
Proof.
  apply (placeholder_stops_where_it_fails (H := StandIn.pillow) Scenario.no_output_dir
           (FileNotFoundError source_path)
           (snd (CreatePlaceholderIcon.main (H := StandIn.pillow) Scenario.no_output_dir))).
  apply raised. vm_compute. reflexivity.
Defined.

(** ** What a run leaves alone *)

Section Frames.

Context `{Pillow}.

Lemma source_path_not_an_output :
  source_path ∉ (icon_path CreatePlaceholderIcon.output_dir
                   <$> Py.items CreatePlaceholderIcon.icons).
Proof. apply (bool_decide_unpack _). vm_compute. exact I. Qed.

Lemma generate_frame script w :
  writable (snd (GenerateIcons.main script w)) = writable w /\
  stdout w `prefix_of` stdout (snd (GenerateIcons.main script w)) /\
  forall p, p ∉ (icon_path (GenerateIcons.output_dir script) <$> Py.items GenerateIcons.icons) ->
    fs (snd (GenerateIcons.main script w)) !! p = fs w !! p.
Proof.
  rewrite main_unfold_generate. unfold bind.
  set (w0 := printed w (loading_line (GenerateIcons.source_icon script))).
  pose proof (Image_open_world (GenerateIcons.source_icon script) w0) as Hw0.
  assert (Hpre0 : stdout w `prefix_of` stdout w0) by now apply prefix_app_r.
  destruct (Image_open (GenerateIcons.source_icon script) w0) as [[img|e] w1];
    simpl in Hw0; subst w1; [|now split; [|split]].
  destruct (for_each (Py.items GenerateIcons.icons)
              (write_icon (GenerateIcons.output_dir script) img) w0) as [o w2] eqn:Hloop.
  apply write_icons_frame in Hloop as (Hwr & _ & Hpre & Hother).
  destruct o as [[]|e]; simpl; (split; [exact Hwr|]; split; [|exact Hother]).
  - etransitivity; [exact Hpre0|]. etransitivity; [exact Hpre|]. now apply prefix_app_r.
  - etransitivity; [exact Hpre0 | exact Hpre].
Qed.

Lemma placeholder_frame w :
  writable (snd (CreatePlaceholderIcon.main w)) = writable w /\
  stdout w `prefix_of` stdout (snd (CreatePlaceholderIcon.main w)) /\
  forall p, p <> source_path ->
    p ∉ (icon_path CreatePlaceholderIcon.output_dir <$> Py.items CreatePlaceholderIcon.icons) ->
    fs (snd (CreatePlaceholderIcon.main w)) !! p = fs w !! p.
Proof.
  rewrite main_unfold, main_with_font_unfold. unfold bind. rewrite save_source_spec.
  destruct (writable w source_path); [|now split; [|split]].
  set (img := labelled (chosen_font w)).
  set (w0 := printed (saved w source_path "PNG" img) source_line).
  assert (Hpre0 : stdout w `prefix_of` stdout w0) by now apply prefix_app_r.
  destruct (for_each (Py.items CreatePlaceholderIcon.icons)
              (write_icon CreatePlaceholderIcon.output_dir img) w0) as [o w2] eqn:Hloop.
  apply write_icons_frame in Hloop as (Hwr & _ & Hpre & Hother).
  assert (Hfs : forall p, p <> source_path ->
            p ∉ (icon_path CreatePlaceholderIcon.output_dir
                   <$> Py.items CreatePlaceholderIcon.icons) ->
            fs w2 !! p = fs w !! p).
  { intros p Hne Hp. rewrite Hother by exact Hp. simpl. now apply lookup_insert_ne. }
  destruct o as [[]|e]; simpl; (split; [exact Hwr|]; split; [|exact Hfs]).
  - etransitivity; [exact Hpre0|]. etransitivity; [exact Hpre|]. now apply prefix_app_r.
  - etransitivity; [exact Hpre0 | exact Hpre].
Qed.

End Frames.

(** X3: whatever its outcome, a run of either script changes no file other
    than its outputs (the 17 manifest paths, and icon_1024x1024.png for the
    placeholder script), changes no permission and only adds lines to what
    was printed; generate_icons.py in particular never changes the source
    icon it reads. *)
Theorem scripts_touch_only_outputs `{Pillow} :
  (forall script w,
     let w' := snd (GenerateIcons.main script w) in
     writable w' = writable w /\
     stdout w `prefix_of` stdout w' /\
     (forall p,
        p ∉ (icon_path (GenerateIcons.output_dir script) <$> Py.items GenerateIcons.icons) ->
        fs w' !! p = fs w !! p) /\
     fs w' !! GenerateIcons.source_icon script = fs w !! GenerateIcons.source_icon script) /\
  (forall w,
     let w' := snd (CreatePlaceholderIcon.main w) in
     writable w' = writable w /\
     stdout w `prefix_of` stdout w' /\
     (forall p,
        p <> source_path ->
        p ∉ (icon_path CreatePlaceholderIcon.output_dir
               <$> Py.items CreatePlaceholderIcon.icons) ->
        fs w' !! p = fs w !! p)).
Proof.
  split.
  - intros script w w'. subst w'.
    destruct (generate_frame script w) as (Hwr & Hpre & Hother).
    repeat split; try assumption. apply Hother, source_not_an_output.
  - intros w w'. subst w'. apply placeholder_frame.
Qed.

Lemma scripts_touch_only_outputs_witness :
  fs (snd (GenerateIcons.main (H := StandIn.pillow) StandIn.script Scenario.locked_generate))
    !! "/Users/dev/meetman/notes.txt"
  = fs Scenario.locked_generate !! "/Users/dev/meetman/notes.txt" /\
  fs (snd (CreatePlaceholderIcon.main (H := StandIn.pillow) Scenario.world_with_font))
    !! helvetica
  = Some (FontFile "Helvetica").
Proof.
  destruct (scripts_touch_only_outputs (H := StandIn.pillow)) as [Hgen Hph].
  split.
  - apply (Hgen StandIn.script Scenario.locked_generate).
    apply (bool_decide_unpack _). vm_compute. exact I.
  - destruct (Hph Scenario.world_with_font) as (_ & _ & Hother).
    rewrite (Hother helvetica).
    + reflexivity.
    + discriminate.
    + apply (bool_decide_unpack _). vm_compute. exact I.
Defined.

(** X4: after a run that returns, the files that exist are those that
    existed before and the outputs: 17 paths for generate_icons.py, 18 for
    create_placeholder_icon.py. *)
Theorem outputs_are_the_new_files `{Pillow} :
  (forall script w w',
     GenerateIcons.main script w = (Ok tt, w') ->
     dom (fs w') = dom (fs w)
       ∪ list_to_set (icon_path (GenerateIcons.output_dir script) <$> Py.items GenerateIcons.icons) /\
     size (list_to_set (C := gset string)
             (icon_path (GenerateIcons.output_dir script) <$> Py.items GenerateIcons.icons))
     = 17%nat) /\
  (forall w w',
     CreatePlaceholderIcon.main w = (Ok tt, w') ->
     dom (fs w') = dom (fs w)
       ∪ ({[source_path]}
          ∪ list_to_set (icon_path CreatePlaceholderIcon.output_dir
                           <$> Py.items CreatePlaceholderIcon.icons)) /\
     size ({[source_path]}
           ∪ list_to_set (C := gset string)
               (icon_path CreatePlaceholderIcon.output_dir
                  <$> Py.items CreatePlaceholderIcon.icons))
     = 18%nat).
Proof.
  split.
  - intros script w w' (format & img & w2 & _ & Hloop & ->)%generate_main_Ok_inv.
    split.
    + apply write_icons_dom in Hloop. exact Hloop.
    + rewrite size_list_to_set by apply icon_paths_NoDup. now rewrite length_fmap.
  - intros w w' (w2 & _ & Hloop & ->)%main_Ok_inv.
    split.
    + apply write_icons_dom in Hloop. unfold printed, saved in *. cbn [fs] in *.
      rewrite Hloop, dom_insert_L.
      rewrite (union_comm_L {[source_path]} (dom (fs w))).
      now rewrite union_assoc_L.
    + rewrite size_union.
      * rewrite size_singleton, size_list_to_set by apply (icon_paths_NoDup _).
        now rewrite length_fmap.
      * apply disjoint_singleton_l. rewrite elem_of_list_to_set.
        apply source_path_not_an_output.
Qed.

Lemma outputs_are_the_new_files_witness :
  dom (fs (snd (CreatePlaceholderIcon.main (H := StandIn.pillow) Scenario.world_with_font)))
  = dom (fs Scenario.world_with_font)
    ∪ ({[source_path]}
       ∪ list_to_set (icon_path CreatePlaceholderIcon.output_dir
                        <$> Py.items CreatePlaceholderIcon.icons)).
Proof.
  destruct (outputs_are_the_new_files (H := StandIn.pillow)) as [_ Hph].
  apply (Hph Scenario.world_with_font
           (snd (CreatePlaceholderIcon.main (H := StandIn.pillow) Scenario.world_with_font))).
  apply returned. vm_compute. reflexivity.
Defined.

(** ** When a run returns *)

Section Returns.

Context `{Pillow}.

Lemma generate_stdout script w w' :
  GenerateIcons.main script w = (Ok tt, w') ->
  stdout w' = (stdout w ++ [loading_line (GenerateIcons.source_icon script)]
               ++ (created_line <$> Py.items GenerateIcons.icons)
               ++ [summary_line])%list.
Proof.
  intros (format & img & w2 & _ & Hloop & ->)%generate_main_Ok_inv.
  apply write_icons_Ok_inv in Hloop as (_ & Hout & _).
  simpl. rewrite Hout. simpl. now rewrite <- !app_assoc.
Qed.

Lemma first_item : ("icon_20x20@2x.png", 40) ∈ Py.items GenerateIcons.icons.
Proof. apply (bool_decide_unpack _). vm_compute. exact I. Qed.

End Returns.

(** X5: a run of generate_icons.py that returns has printed the "Loading"
    line, one "Created" line per entry in manifest order, and the summary,
    in that order and nothing else; and it returns only if the source icon
    held an image whose pixels load and whose mode the PNG encoder writes,
    and each of the 17 output paths could be written. *)
Theorem generate_returned `{Pillow} script w w' :
  GenerateIcons.main script w = (Ok tt, w') ->
  stdout w' = (stdout w ++ [loading_line (GenerateIcons.source_icon script)]
               ++ (created_line <$> Py.items GenerateIcons.icons)
               ++ [summary_line])%list /\
  (exists format img,
     fs w !! GenerateIcons.source_icon script = Some (ImageFile format img) /\
     load_error img = None /\
     png_mode (Image_mode img) = true) /\
  Forall (fun item => writable w (icon_path (GenerateIcons.output_dir script) item) = true)
    (Py.items GenerateIcons.icons).
Proof.
  intros Hrun. split; [exact (generate_stdout _ _ _ Hrun)|].
  destruct (generate_returns_only_if _ _ _ Hrun) as [_ Hall].
  apply generate_main_Ok_inv in Hrun as (format & img & w2 & Hsrc & Hloop & _).
  split; [|now rewrite Forall_forall].
  exists format, img. split; [exact Hsrc|].
  exact (write_icons_Ok_ready _ _ _ _ _ _ first_item Hloop).
Qed.

Lemma generate_returned_witness :
  stdout (snd (GenerateIcons.main (H := StandIn.pillow) StandIn.script
                 StandIn.world_with_source))
  = (stdout StandIn.world_with_source
     ++ [loading_line (GenerateIcons.source_icon StandIn.script)]
     ++ (created_line <$> Py.items GenerateIcons.icons)
     ++ [summary_line])%list /\
  (exists format img,
     fs StandIn.world_with_source !! GenerateIcons.source_icon StandIn.script
     = Some (ImageFile format img) /\
     load_error img = None /\
     png_mode (Image_mode img) = true) /\
  Forall (fun item =>
            writable StandIn.world_with_source
              (icon_path (GenerateIcons.output_dir StandIn.script) item) = true)
    (Py.items GenerateIcons.icons).
Proof.
  apply (generate_returned (H := StandIn.pillow) StandIn.script StandIn.world_with_source
           (snd (GenerateIcons.main (H := StandIn.pillow) StandIn.script
                   StandIn.world_with_source))).
  apply returned. vm_compute. reflexivity.
Defined.

(** X6: create_placeholder_icon.py returns exactly when its 18 output paths
    may be written, whichever font it ends up with; it has then printed the
    "Created source icon" line, one "Created" line per entry in manifest
    order, and the summary. *)
Theorem placeholder_returns_iff `{Pillow} w :
  ((exists w', CreatePlaceholderIcon.main w = (Ok tt, w')) <->
   writable w source_path = true /\
   Forall (fun item => writable w (icon_path CreatePlaceholderIcon.output_dir item) = true)
     (Py.items CreatePlaceholderIcon.icons)) /\
  (forall w',
     CreatePlaceholderIcon.main w = (Ok tt, w') ->
     stdout w' = (stdout w ++ [source_line]
                  ++ (created_line <$> Py.items CreatePlaceholderIcon.icons)
                  ++ [summary_line])%list).
Proof.
  rewrite Forall_forall. split; [split|].
  - intros [w' Hrun]. exact (placeholder_returns_only_if _ _ Hrun).
  - intros [Hsrc Hall]. destruct (placeholder_returns w Hsrc Hall) as (w' & Hrun & _). eauto.
  - intros w' Hrun.
    destruct (placeholder_returns_only_if _ _ Hrun) as [Hsrc Hall].
    destruct (placeholder_returns w Hsrc Hall) as (w'' & Hrun' & Hout).
    rewrite Hrun in Hrun'. now injection Hrun' as <-.
Qed.

Lemma placeholder_returns_iff_witness :
  (exists w', CreatePlaceholderIcon.main (H := StandIn.pillow) Scenario.world_with_font
              = (Ok tt, w')) /\
  ~ (exists w', CreatePlaceholderIcon.main (H := StandIn.pillow) Scenario.locked_placeholder
                = (Ok tt, w')).
Proof.
  split.
  - apply (proj1 (placeholder_returns_iff (H := StandIn.pillow) Scenario.world_with_font)).
    split; [reflexivity|]. apply (bool_decide_unpack _). vm_compute. exact I.
  - intros Hret.
    apply (proj1 (placeholder_returns_iff (H := StandIn.pillow) Scenario.locked_placeholder))
      in Hret as [_ Hall].
    revert Hall. apply (bool_decide_unpack _). vm_compute. exact I.
Defined.

(** X7: wherever generate_icons.py is installed, the source icon it opens
    is the file icon_1024x1024.png of its own output directory, and that
    directory and that file are, below the script's directory, the relative
    paths create_placeholder_icon.py writes to. *)
Theorem source_icon_in_output_dir (script : string) :
  GenerateIcons.source_icon script
    = Py.os_path_join (GenerateIcons.output_dir script) "icon_1024x1024.png" /\
  GenerateIcons.output_dir script
    = Py.os_path_join (GenerateIcons.base_dir script) CreatePlaceholderIcon.output_dir /\
  GenerateIcons.source_icon script
    = Py.os_path_join (GenerateIcons.base_dir script)
        (Py.os_path_join CreatePlaceholderIcon.output_dir "icon_1024x1024.png").
Proof.
  repeat split.
  unfold GenerateIcons.output_dir, GenerateIcons.source_icon.
  rewrite join_join by (reflexivity || discriminate).
  now rewrite join_relative by reflexivity.
Qed.

(** ** The source icon and the icons *)

Section SourceAndIcons.

Context `{Pillow}.

Lemma placeholder_source_file w w' :
  CreatePlaceholderIcon.main w = (Ok tt, w') ->
  fs w' !! source_path = Some (ImageFile "PNG" (labelled (chosen_font w))).
Proof.
  intros (w2 & _ & Hloop & ->)%main_Ok_inv.
  apply write_icons_Ok_inv in Hloop as (_ & _ & _ & Hother & _).
  simpl. rewrite Hother by apply source_path_not_an_output.
  apply lookup_insert_eq.
Qed.

Lemma generate_source_kept script w w' :
  GenerateIcons.main script w = (Ok tt, w') ->
  fs w' !! GenerateIcons.source_icon script = fs w !! GenerateIcons.source_icon script.
Proof.
  intros Hrun. destruct (generate_frame script w) as (_ & _ & Hother).
  rewrite Hrun in Hother. apply Hother, source_not_an_output.
Qed.

End SourceAndIcons.

(** X8: after a run of either script that returns, the icons on disk belong
    to the source icon on disk: icon_1024x1024.png opens, and every manifest
    file holds that very image resized to the entry's edge length.  For the
    placeholder script, which resizes its image in memory and never reads
    the file back, this is the same as having resized the saved file. *)
Theorem icons_are_resized_source `{Pillow} :
  (forall script w w',
     GenerateIcons.main script w = (Ok tt, w') ->
     exists img,
       Image_open (GenerateIcons.source_icon script) w' = (Ok img, w') /\
       forall item, item ∈ Py.items GenerateIcons.icons ->
         exists r, resize img (snd item, snd item) LANCZOS = Ok r /\
           fs w' !! icon_path (GenerateIcons.output_dir script) item
             = Some (ImageFile "PNG" r)) /\
  (forall w w',
     CreatePlaceholderIcon.main w = (Ok tt, w') ->
     exists img,
       Image_open source_path w' = (Ok img, w') /\
       forall item, item ∈ Py.items CreatePlaceholderIcon.icons ->
         exists r, resize img (snd item, snd item) LANCZOS = Ok r /\
           fs w' !! icon_path CreatePlaceholderIcon.output_dir item
             = Some (ImageFile "PNG" r)).
Proof.
  split.
  - intros script w w' Hrun.
    destruct (generate_files _ _ _ Hrun) as (format & img & Hsrc & Hfiles).
    exists img. split; [|exact Hfiles].
    unfold Image_open. now rewrite (generate_source_kept _ _ _ Hrun), Hsrc.
  - intros w w' Hrun. exists (labelled (chosen_font w)). split.
    + unfold Image_open. now rewrite (placeholder_source_file _ _ Hrun).
    + exact (placeholder_files _ _ Hrun).
Qed.

Lemma icons_are_resized_source_witness :
  exists img,
    Image_open source_path
      (snd (CreatePlaceholderIcon.main (H := StandIn.pillow) Scenario.world_with_font))
    = (Ok img, snd (CreatePlaceholderIcon.main (H := StandIn.pillow) Scenario.world_with_font)) /\
    forall item, item ∈ Py.items CreatePlaceholderIcon.icons ->
      exists r, resize (H := StandIn.pillow) img (snd item, snd item) LANCZOS = Ok r /\
        fs (snd (CreatePlaceholderIcon.main (H := StandIn.pillow) Scenario.world_with_font))
          !! icon_path CreatePlaceholderIcon.output_dir item
        = Some (ImageFile "PNG" r).
Proof.
  destruct (icons_are_resized_source (H := StandIn.pillow)) as [_ Hph].
  apply (Hph Scenario.world_with_font
           (snd (CreatePlaceholderIcon.main (H := StandIn.pillow) Scenario.world_with_font))).
  apply returned. vm_compute. reflexivity.
Defined.

(** X10: where the label ends up.  Anchoring keeps the size of the measured
    box, whatever the font's offsets bbox[0] and bbox[1] are.  A text that
    is at most as wide (as high) as the canvas lies within it horizontally
    (vertically); a wider (higher) one starts before the canvas and reaches
    at least its far edge: the script does not shrink or refuse it. *)
Theorem label_within_canvas (bbox0 bbox1 bbox2 bbox3 : Z) :
  let '(x0, y0, x1, y1) :=
    bbox_at (CreatePlaceholderIcon.text_xy (bbox0, bbox1, bbox2, bbox3))
            (bbox0, bbox1, bbox2, bbox3) in
  x1 - x0 = bbox2 - bbox0 /\
  y1 - y0 = bbox3 - bbox1 /\
  (0 <= bbox2 - bbox0 <= CreatePlaceholderIcon.size ->
   0 <= x0 /\ x1 <= CreatePlaceholderIcon.size) /\
  (0 <= bbox3 - bbox1 <= CreatePlaceholderIcon.size ->
   0 <= y0 /\ y1 <= CreatePlaceholderIcon.size) /\
  (CreatePlaceholderIcon.size < bbox2 - bbox0 ->
   x0 < 0 /\ CreatePlaceholderIcon.size <= x1) /\
  (CreatePlaceholderIcon.size < bbox3 - bbox1 ->
   y0 < 0 /\ CreatePlaceholderIcon.size <= y1).
Proof.
  unfold bbox_at, CreatePlaceholderIcon.text_xy, CreatePlaceholderIcon.size.
  simpl fst. simpl snd.
  pose proof (Z.div_mod (1024 - (bbox2 - bbox0)) 2 ltac:(lia)) as Hx.
  pose proof (Z.mod_pos_bound (1024 - (bbox2 - bbox0)) 2 ltac:(lia)) as Hxr.
  pose proof (Z.div_mod (1024 - (bbox3 - bbox1)) 2 ltac:(lia)) as Hy.
  pose proof (Z.mod_pos_bound (1024 - (bbox3 - bbox1)) 2 ltac:(lia)) as Hyr.
  repeat split; lia.
Qed.

Lemma label_within_canvas_witness :
  (0 <= 212 /\ 812 <= CreatePlaceholderIcon.size) /\
  (-138 < 0 /\ CreatePlaceholderIcon.size <= 1162).
Proof.
  pose proof (label_within_canvas 25 100 625 400) as (_ & _ & Hfit & _).
  pose proof (label_within_canvas 0 0 1300 400) as (_ & _ & _ & _ & Hwide & _).
  split.
  - apply Hfit. unfold CreatePlaceholderIcon.size. lia.
  - apply Hwide. unfold CreatePlaceholderIcon.size. lia.
Defined.

(** ** The order of the manifest *)

Section Order.

Context `{Pillow}.

Lemma write_icons_perm dir img items items' w w1 :
  items' ≡ₚ items ->
  NoDup (icon_path dir <$> items) ->
  (forall item, item ∈ items -> 1 <= snd item) ->
  for_each items (write_icon dir img) w = (Ok tt, w1) ->
  exists w2,
    for_each items' (write_icon dir img) w = (Ok tt, w2) /\
    fs w2 = fs w1 /\
    stdout w2 = (stdout w ++ (created_line <$> items'))%list.
Proof.
  intros Hperm Hnd Hsz Hrun.
  destruct items as [|item0 items].
  { apply Permutation_nil_r in Hperm as ->. injection Hrun as <-.
    exists w. repeat split. simpl. now rewrite app_nil_r. }
  destruct (write_icons_Ok_ready dir img (item0 :: items) w w1 item0) as [Hload Hmode];
    [apply elem_of_cons; now left | exact Hrun |].
  apply write_icons_Ok_inv in Hrun as (_ & _ & Hall & Hother & Hfiles).
  specialize (Hfiles Hnd).
  destruct (write_icons_run dir img items' w Hload Hmode) as [w2 Hrun'].
  { intros item Hin. rewrite Hperm in Hin. split; [now apply Hsz | now apply Hall]. }
  exists w2. split; [exact Hrun'|].
  apply write_icons_Ok_inv in Hrun' as (_ & Hout & _ & Hother' & Hfiles').
  assert (Hnd' : NoDup (icon_path dir <$> items')) by now rewrite Hperm.
  specialize (Hfiles' Hnd'). split; [|exact Hout].
  apply map_eq. intros p.
  destruct (decide (p ∈ (icon_path dir <$> item0 :: items))) as [Hp|Hp].
  - apply list_elem_of_fmap in Hp as (item & -> & Hin).
    destruct (Hfiles item Hin) as (r & Hr & ->).
    destruct (Hfiles' item) as (r' & Hr' & ->); [now rewrite Hperm|].
    congruence.
  - rewrite (Hother p Hp). apply Hother'. now rewrite Hperm.
Qed.

End Order.

(** X11: the order of the manifest matters to the console only.  If the
    loop of either script returns, then the same loop body run over the
    entries in any other order returns too and leaves the same files; the
    "Created" lines come in the order of the entries. *)
Theorem manifest_order_is_immaterial `{Pillow} :
  (forall script img items' w w1,
     items' ≡ₚ Py.items GenerateIcons.icons ->
     GenerateIcons.resize_loop script img w = (Ok tt, w1) ->
     exists w2,
       for_each items' (GenerateIcons.loop_body script img) w = (Ok tt, w2) /\
       fs w2 = fs w1 /\
       stdout w2 = (stdout w ++ (created_line <$> items'))%list) /\
  (forall img items' w w1,
     items' ≡ₚ Py.items CreatePlaceholderIcon.icons ->
     CreatePlaceholderIcon.resize_loop img w = (Ok tt, w1) ->
     exists w2,
       for_each items' (CreatePlaceholderIcon.loop_body img) w = (Ok tt, w2) /\
       fs w2 = fs w1 /\
       stdout w2 = (stdout w ++ (created_line <$> items'))%list).
Proof.
  split.
  - intros script img items' w w1 Hperm Hrun.
    apply (write_icons_perm (GenerateIcons.output_dir script) img
             (Py.items GenerateIcons.icons) items' w w1 Hperm).
    + apply icon_paths_NoDup.
    + intros item Hin. now apply item_size_in_range.
    + exact Hrun.
  - intros img items' w w1 Hperm Hrun.
    apply (write_icons_perm CreatePlaceholderIcon.output_dir img
             (Py.items CreatePlaceholderIcon.icons) items' w w1 Hperm).
    + apply (icon_paths_NoDup CreatePlaceholderIcon.output_dir).
    + intros item Hin. now apply item_size_in_range.
    + exact Hrun.
Qed.

Lemma manifest_order_is_immaterial_witness :
  let img := StandIn.gradient 1024 1024 in
  exists w2,
    for_each (reverse (Py.items GenerateIcons.icons))
      (GenerateIcons.loop_body (H := StandIn.pillow) StandIn.script img) StandIn.empty_world
    = (Ok tt, w2) /\
    fs w2 = fs (snd (GenerateIcons.resize_loop (H := StandIn.pillow) StandIn.script img
                       StandIn.empty_world)) /\
    stdout w2 = created_line <$> reverse (Py.items GenerateIcons.icons).
Proof.
  intros img.
  apply (proj1 (manifest_order_is_immaterial (H := StandIn.pillow)) StandIn.script img
           (reverse (Py.items GenerateIcons.icons)) StandIn.empty_world
           (snd (GenerateIcons.resize_loop (H := StandIn.pillow) StandIn.script img
                   StandIn.empty_world))).
  - apply reverse_Permutation.
  - apply returned. vm_compute. reflexivity.
Defined.
